(** * video_downloader.py: the job runner, its line parser and the URL sources

    A shallow embedding of [src/video_downloader.py].  Text is modelled as
    [string] (one [ascii] per character, read as the code points U+0000 to
    U+00FF), the progress object as a record, and the statements of
    [download_video] and [main] as computations in a state-and-exception
    monad whose state survives a raised exception, as the attributes of a
    Python object do.

    The operating system is a parameter: what [Popen] answers (an
    exception, or a process given by the lines it prints, a possible read
    failure and its exit code), what opening a file gives, whether the
    directory and the log can be set up.  One call of [download_video] is
    one worker's run on its own progress object; the thread pool, the
    dashboard thread and the summary of [main] are a parameter too. *)

From Stdlib Require Import String Ascii List Bool Arith ZArith QArith Lia.
From Stdlib Require Import DecimalString.
Import ListNotations.
Local Close Scope Q_scope.
Local Open Scope string_scope.
Local Open Scope nat_scope.

(** ** Characters and strings *)

Module Str.

(** [str.isspace] on U+0000..U+00FF; the same set is what [\s] matches in a
    [str] pattern and what [str.strip()] removes. *)
Definition isspace (c : ascii) : bool :=
  let n := nat_of_ascii c in
  ((9 <=? n) && (n <=? 13)) || ((28 <=? n) && (n <=? 32))
  || (n =? 133) || (n =? 160).

(** [\d] on U+0000..U+00FF: the decimal digits. *)
Definition isdigit (c : ascii) : bool :=
  let n := nat_of_ascii c in (48 <=? n) && (n <=? 57).

Definition newline : ascii := ascii_of_nat 10.

Fixpoint drop (k : nat) (s : string) : string :=
  match k, s with
  | S k', String _ s' => drop k' s'
  | _, _ => s
  end.

Definition take (k : nat) (s : string) : string := substring 0 k s.

Fixpoint rev_onto (s acc : string) : string :=
  match s with
  | EmptyString => acc
  | String c s' => rev_onto s' (String c acc)
  end.

Definition rev (s : string) : string := rev_onto s EmptyString.

Fixpoint lstrip (s : string) : string :=
  match s with
  | String c s' => if isspace c then lstrip s' else s
  | EmptyString => EmptyString
  end.

Definition rstrip (s : string) : string := rev (lstrip (rev s)).

(** [s.strip()] *)
Definition strip (s : string) : string := rstrip (lstrip s).

(** [s.startswith(p)] *)
Definition startswith (p s : string) : bool := prefix p s.

(** [str(n)] for an [int] *)
Definition of_Z (z : Z) : string := NilZero.string_of_int (Z.to_int z).

(** The number of occurrences of [c] in [s]. *)
Fixpoint count (c : ascii) (s : string) : nat :=
  match s with
  | EmptyString => 0
  | String d s' => (if Ascii.eqb c d then 1 else 0) + count c s'
  end.

Fixpoint forallb (f : ascii -> bool) (s : string) : bool :=
  match s with
  | EmptyString => true
  | String c s' => f c && forallb f s'
  end.

(** [needle in hay] *)
Fixpoint contains (needle hay : string) : bool :=
  prefix needle hay
  || match hay with
     | EmptyString => false
     | String _ hay' => contains needle hay'
     end.

End Str.

(** ** Regular expressions: the fragment of [re] the program uses

    Literals, the escapes [\d] and [\s], escaped punctuation, [.], bracket
    classes without ranges, the greedy quantifiers [?], [*] and [+] on a
    single character set, and one capturing group.  [parse] reads the
    pattern text as it stands in the source (a raw string, so a backslash is
    a character of the text) and rejects everything outside the fragment. *)

Module Re.

Inductive citem : Type :=
| ItChar (c : ascii)
| ItDigit
| ItSpace.

Inductive cset : Type :=
| Single (i : citem)
| Dot
| Class (items : list citem).

Inductive quant : Type := Once | ZeroOrOne | ZeroOrMore | OneOrMore.

Inductive node : Type :=
| Atom (cs : cset) (q : quant)
| GroupOpen
| GroupClose.

Definition regex := list node.

Definition citem_mem (i : citem) (c : ascii) : bool :=
  match i with
  | ItChar d => Ascii.eqb d c
  | ItDigit => Str.isdigit c
  | ItSpace => Str.isspace c
  end.

Definition cset_mem (cs : cset) (c : ascii) : bool :=
  match cs with
  | Single i => citem_mem i c
  | Dot => negb (Ascii.eqb c Str.newline)
  | Class items => existsb (fun i => citem_mem i c) items
  end.

(** *** Reading a pattern *)

Inductive token : Type :=
| TAtom (cs : cset)
| TQuant (q : quant)
| TOpen
| TClose.

Inductive lex_mode : Type :=
| Top
| TopEsc
| InClass (acc : list citem)
| InClassEsc (acc : list citem).

Definition is_alnum (c : ascii) : bool :=
  let n := nat_of_ascii c in
  Str.isdigit c || ((65 <=? n) && (n <=? 90)) || ((97 <=? n) && (n <=? 122)).

(** What a backslash followed by [c] stands for. *)
Definition escape (c : ascii) : option citem :=
  if Ascii.eqb c "d" then Some ItDigit
  else if Ascii.eqb c "s" then Some ItSpace
  else if is_alnum c then None
  else Some (ItChar c).

Fixpoint lex (mode : lex_mode) (s : string) : option (list token) :=
  match s with
  | EmptyString =>
      match mode with Top => Some [] | _ => None end
  | String c s' =>
      match mode with
      | Top =>
          if Ascii.eqb c "\" then lex TopEsc s'
          else if Ascii.eqb c "[" then lex (InClass []) s'
          else if Ascii.eqb c "(" then option_map (cons TOpen) (lex Top s')
          else if Ascii.eqb c ")" then option_map (cons TClose) (lex Top s')
          else if Ascii.eqb c "." then option_map (cons (TAtom Dot)) (lex Top s')
          else if Ascii.eqb c "?" then
            option_map (cons (TQuant ZeroOrOne)) (lex Top s')
          else if Ascii.eqb c "*" then
            option_map (cons (TQuant ZeroOrMore)) (lex Top s')
          else if Ascii.eqb c "+" then
            option_map (cons (TQuant OneOrMore)) (lex Top s')
          else if existsb (Ascii.eqb c) ["^"; "$"; "{"; "}"; "|"; "]"]%char
          then None
          else option_map (cons (TAtom (Single (ItChar c)))) (lex Top s')
      | TopEsc =>
          match escape c with
          | Some i => option_map (cons (TAtom (Single i))) (lex Top s')
          | None => None
          end
      | InClass acc =>
          if Ascii.eqb c "]" then
            match acc with
            | [] => None
            | _ => option_map (cons (TAtom (Class (List.rev acc)))) (lex Top s')
            end
          else if Ascii.eqb c "\" then lex (InClassEsc acc) s'
          else if existsb (Ascii.eqb c) ["^"; "-"; "["]%char then None
          else lex (InClass (ItChar c :: acc)) s'
      | InClassEsc acc =>
          match escape c with
          | Some i => lex (InClass (i :: acc)) s'
          | None => None
          end
      end
  end.

(** A quantifier binds to the character set before it; a quantifier
    anywhere else (on a group, doubled, or leading) is outside the
    fragment. *)
Fixpoint assemble (ts : list token) : option regex :=
  match ts with
  | [] => Some []
  | TAtom cs :: rest =>
      match rest with
      | TQuant q :: rest' => option_map (cons (Atom cs q)) (assemble rest')
      | _ => option_map (cons (Atom cs Once)) (assemble rest)
      end
  | TQuant _ :: _ => None
  | TOpen :: rest => option_map (cons GroupOpen) (assemble rest)
  | TClose :: rest => option_map (cons GroupClose) (assemble rest)
  end.

(** Either no group, or one opened and then closed. *)
Fixpoint grouping (r : regex) (state : nat) : bool :=
  match r with
  | [] => (state =? 0) || (state =? 2)
  | GroupOpen :: r' => (state =? 0) && grouping r' 1
  | GroupClose :: r' => (state =? 1) && grouping r' 2
  | Atom _ _ :: r' => grouping r' state
  end.

Definition parse (pattern : string) : option regex :=
  match lex Top pattern with
  | Some ts =>
      match assemble ts with
      | Some r => if grouping r 0 then Some r else None
      | None => None
      end
  | None => None
  end.

(** *** Matching: leftmost, greedy, backtracking *)

Fixpoint span (cs : cset) (s : string) : nat :=
  match s with
  | String c s' => if cset_mem cs c then S (span cs s') else 0
  | EmptyString => 0
  end.

Definition least (q : quant) : nat :=
  match q with
  | Once | OneOrMore => 1
  | ZeroOrOne | ZeroOrMore => 0
  end.

Definition most (q : quant) (available : nat) : nat :=
  match q with
  | Once | ZeroOrOne => Nat.min 1 available
  | ZeroOrMore | OneOrMore => available
  end.

(** Try [k], [k-1], ..., [lo] repetitions and keep the first that lets the
    rest of the pattern match. *)
Fixpoint attempt {A : Type} (rest : nat -> option A) (lo k : nat) : option A :=
  if k <? lo then None
  else
    match rest k with
    | Some x => Some x
    | None =>
        match k with
        | 0 => None
        | S k' => attempt rest lo k'
        end
    end.

(** [match_here r s opened g1]: match [r] at the head of [s]; [opened] is
    the text from where group 1 was opened, [g1] the text of group 1 once
    closed.  The result is group 1 of the match found. *)
Fixpoint match_here (r : regex) (s opened : string) (g1 : option string)
  : option (option string) :=
  match r with
  | [] => Some g1
  | GroupOpen :: r' => match_here r' s s g1
  | GroupClose :: r' =>
      match_here r' s opened
        (Some (Str.take (String.length opened - String.length s) opened))
  | Atom cs q :: r' =>
      attempt (fun k => match_here r' (Str.drop k s) opened g1)
        (least q) (most q (span cs s))
  end.

(** A match object, as far as the program looks at it. *)
Record Match : Type := { group_1 : option string }.

(** [pattern.search(s)]: the match at the leftmost position that has one. *)
Fixpoint search (r : regex) (s : string) : option Match :=
  match match_here r s s None with
  | Some g => Some {| group_1 := g |}
  | None =>
      match s with
      | EmptyString => None
      | String _ s' => search r s'
      end
  end.

End Re.

(** ** Exceptions, and computations that mutate and may raise *)

Inductive exc_class : Type :=
| ValueError | IndexError | ReError | OSError | FileNotFoundError
| PermissionError | UnicodeDecodeError | CalledProcessError | TimeoutExpired.

(** An instance of a subclass of [Exception]: its class and [str(e)]. *)
Record exception : Type := Exc { exc_type : exc_class; exc_str : string }.

(** What can leave [main]: an [Exception], or one of the two
    [BaseException]s the program meets. *)
Inductive base_exception : Type :=
| Raised (e : exception)
| SystemExit (code : Z)
| KeyboardInterrupt.

Definition exc_class_eqb (a b : exc_class) : bool :=
  match a, b with
  | ValueError, ValueError | IndexError, IndexError | ReError, ReError
  | OSError, OSError | FileNotFoundError, FileNotFoundError
  | PermissionError, PermissionError
  | UnicodeDecodeError, UnicodeDecodeError
  | CalledProcessError, CalledProcessError
  | TimeoutExpired, TimeoutExpired => true
  | _, _ => false
  end.

(** [M E S A]: a computation on a state [S] that returns an [A] or raises
    an [E]; the state it leaves is there in both cases. *)
Definition M (E S A : Type) : Type := S -> (E + A) * S.

Section Monad.
Context {E S : Type}.

Definition ret {A} (a : A) : M E S A := fun s => (inr a, s).

Definition bind {A B} (m : M E S A) (k : A -> M E S B) : M E S B :=
  fun s =>
    match m s with
    | (inr a, s') => k a s'
    | (inl e, s') => (inl e, s')
    end.

Definition raise {A} (e : E) : M E S A := fun s => (inl e, s).

Definition get : M E S S := fun s => (inr s, s).

Definition modify (f : S -> S) : M E S unit := fun s => (inr tt, f s).

(** [try: body / except <classes>: handler]: [catches e] says whether the
    [except] clause names a class of [e]. *)
Definition try_except {A} (body : M E S A) (catches : E -> bool)
    (handler : E -> M E S A) : M E S A :=
  fun s =>
    match body s with
    | (inr a, s') => (inr a, s')
    | (inl e, s') => if catches e then handler e s' else (inl e, s')
    end.

(** A result that is already there, or an exception to raise. *)
Definition lift {A} (r : E + A) : M E S A :=
  match r with
  | inr a => ret a
  | inl e => raise e
  end.

Fixpoint for_each {A} (xs : list A) (body : A -> M E S unit) : M E S unit :=
  match xs with
  | [] => ret tt
  | x :: xs' => bind (body x) (fun _ => for_each xs' body)
  end.
End Monad.

Declare Scope monad_scope.
Delimit Scope monad_scope with monad.
Notation "x <- m ;; k" := (bind m (fun x => k))
  (at level 61, m at next level, right associativity) : monad_scope.
Notation "m ;; k" := (bind m (fun _ => k))
  (at level 61, right associativity) : monad_scope.
Local Open Scope monad_scope.

(** A text stream read line by line ([for line in f]): the lines it yields
    and, when reading fails, the exception raised after the last of them. *)
Record Stream (A : Type) : Type :=
  { lines : list A; failure : option exception }.
Arguments lines {A} _.
Arguments failure {A} _.

Definition iterate {E S A} (inj : exception -> E) (f : Stream A)
    (body : A -> M E S unit) : M E S unit :=
  for_each (lines f) body ;;
  match failure f with
  | Some e => raise (inj e)
  | None => ret tt
  end.

(** ** Numbers

    [percentage] holds the [int]s 0 and 100 and the results of [float];
    the model keeps the rational a decimal text denotes, in lowest terms.
    (Python rounds it to the nearest binary64; nothing below depends on
    digits beyond that precision.) *)

Definition digit_or_dot (c : ascii) : bool :=
  Str.isdigit c || Ascii.eqb c ".".

Fixpoint digits_value (s : string) (acc : N) : N :=
  match s with
  | EmptyString => acc
  | String c s' =>
      if Str.isdigit c
      then digits_value s' (10 * acc + (N_of_ascii c - 48))%N
      else digits_value s' acc
  end.

(** The number of characters after the first ["."], 0 when there is none. *)
Definition fraction_length (s : string) : nat :=
  match index 0 "." s with
  | Some i => String.length s - S i
  | None => 0
  end.

Definition decimal_value (s : string) : Q :=
  Qred (Z.of_N (digits_value s 0)
        # Z.to_pos (10 ^ Z.of_nat (fraction_length s))).

(** A decimal literal [float] accepts: at most one point, at least one
    digit. *)
Definition decimal_literal (s : string) : bool :=
  (Str.count "." s <=? 1) && (Str.count "." s <? String.length s).

(** [repr(s)] for text without quotes, backslashes or control characters. *)
Definition repr (s : string) : string := "'" ++ s ++ "'".

(** [float(s)] on text made of digits and points, which is all the program
    passes to it (group 1 of the percentage pattern; this is proved below
    as [percentage_text_is_digits_and_points]).  Other text is outside the
    model and is reported as a [ValueError] as well. *)
Definition float (s : string) : exception + Q :=
  if Str.forallb digit_or_dot s && decimal_literal s
  then inr (decimal_value s)
  else inl (Exc ValueError ("could not convert string to float: " ++ repr s)).

(** ** [class DownloadProgress] *)

Record DownloadProgress : Type := {
  url : string;
  index : Z;
  total : Z;
  percentage : Q;
  speed : string;
  eta : string;
  size : string;
  downloaded : string;
  filename : string;
  completed : bool;
  error : option string
}.

Module DownloadProgress.

(** [__init__] *)
Definition init (url : string) (index total : Z) : DownloadProgress :=
  {| url := url; index := index; total := total;
     percentage := 0%Q; speed := "0B/s"; eta := "00:00"; size := "Unknown";
     downloaded := "0B"; filename := "Unknown";
     completed := false; error := None |}.

Definition with_percentage (v : Q) (p : DownloadProgress) :=
  {| url := url p; index := index p; total := total p;
     percentage := v; speed := speed p; eta := eta p; size := size p;
     downloaded := downloaded p; filename := filename p;
     completed := completed p; error := error p |}.

Definition with_speed (v : string) (p : DownloadProgress) :=
  {| url := url p; index := index p; total := total p;
     percentage := percentage p; speed := v; eta := eta p; size := size p;
     downloaded := downloaded p; filename := filename p;
     completed := completed p; error := error p |}.

Definition with_eta (v : string) (p : DownloadProgress) :=
  {| url := url p; index := index p; total := total p;
     percentage := percentage p; speed := speed p; eta := v; size := size p;
     downloaded := downloaded p; filename := filename p;
     completed := completed p; error := error p |}.

Definition with_size (v : string) (p : DownloadProgress) :=
  {| url := url p; index := index p; total := total p;
     percentage := percentage p; speed := speed p; eta := eta p; size := v;
     downloaded := downloaded p; filename := filename p;
     completed := completed p; error := error p |}.

Definition with_downloaded (v : string) (p : DownloadProgress) :=
  {| url := url p; index := index p; total := total p;
     percentage := percentage p; speed := speed p; eta := eta p;
     size := size p; downloaded := v; filename := filename p;
     completed := completed p; error := error p |}.

Definition with_filename (v : string) (p : DownloadProgress) :=
  {| url := url p; index := index p; total := total p;
     percentage := percentage p; speed := speed p; eta := eta p;
     size := size p; downloaded := downloaded p; filename := v;
     completed := completed p; error := error p |}.

Definition with_completed (v : bool) (p : DownloadProgress) :=
  {| url := url p; index := index p; total := total p;
     percentage := percentage p; speed := speed p; eta := eta p;
     size := size p; downloaded := downloaded p; filename := filename p;
     completed := v; error := error p |}.

Definition with_error (v : option string) (p : DownloadProgress) :=
  {| url := url p; index := index p; total := total p;
     percentage := percentage p; speed := speed p; eta := eta p;
     size := size p; downloaded := downloaded p; filename := filename p;
     completed := completed p; error := v |}.

(** Truth value of an optional text argument ([if size:]). *)
Definition given (v : option string) : option string :=
  match v with
  | Some EmptyString => None
  | _ => v
  end.

Definition set_if_given (set : string -> DownloadProgress -> DownloadProgress)
    (v : option string) (p : DownloadProgress) : DownloadProgress :=
  match given v with
  | Some x => set x p
  | None => p
  end.

(** [update] (no caller in the program) *)
Definition update (percentage : Q) (speed eta : string)
    (size downloaded filename : option string) (p : DownloadProgress)
  : DownloadProgress :=
  set_if_given with_filename filename
    (set_if_given with_downloaded downloaded
       (set_if_given with_size size
          (with_eta eta (with_speed speed (with_percentage percentage p))))).

(** [set_completed] *)
Definition set_completed (p : DownloadProgress) : DownloadProgress :=
  let p := with_completed true p in
  let p := with_percentage 100%Q p in
  with_downloaded (size p) p.

(** [set_error] *)
Definition set_error (error : string) (p : DownloadProgress)
  : DownloadProgress :=
  with_error (Some error) p.

(** Truth value of [tracker.error]. *)
Definition has_error (p : DownloadProgress) : bool :=
  match error p with
  | None | Some EmptyString => false
  | Some _ => true
  end.

End DownloadProgress.

(** The three rows of the dashboard ([display_progress], lines 219-227):
    [tracker.completed] is looked at first, [tracker.error] second. *)
Inductive status : Type := COMPLETED | ERROR | DOWNLOADING.

Definition display_status (tracker : DownloadProgress) : status :=
  if completed tracker then COMPLETED
  else if DownloadProgress.has_error tracker then ERROR
  else DOWNLOADING.

(** The counters [successful] and [failed] of [print_progress_final]
    (lines 255-256). *)
Definition summary_counts (progress_trackers : list DownloadProgress)
  : nat * nat :=
  (List.length (filter completed progress_trackers),
   List.length (filter DownloadProgress.has_error progress_trackers)).

(** The condition of the [while] loop of [display_progress] (line 210);
    [stop_is_set] is [stop_event.is_set()]. *)
Definition display_continues (stop_is_set : bool)
    (progress_trackers : list DownloadProgress) : bool :=
  negb stop_is_set
  || existsb (fun tracker =>
                negb (completed tracker)
                && negb (DownloadProgress.has_error tracker))
       progress_trackers.

(** The status column of [print_progress_final] (line 262). *)
Inductive final_status : Type :=
| FINAL_COMPLETED | FINAL_ERROR | FINAL_UNKNOWN.

Definition summary_status (tracker : DownloadProgress) : final_status :=
  if completed tracker then FINAL_COMPLETED
  else if DownloadProgress.has_error tracker then FINAL_ERROR
  else FINAL_UNKNOWN.

(** [if len(short_filename) > limit:
       short_filename = "..." + short_filename[-keep:]] *)
Definition shorten (limit keep : nat) (short_filename : string) : string :=
  if limit <? String.length short_filename
  then "..." ++ Str.drop (String.length short_filename - keep) short_filename
  else short_filename.

(** Lines 230-232 of [display_progress] and 266-268 of
    [print_progress_final]. *)
Definition display_short_filename (tracker : DownloadProgress) : string :=
  shorten 30 27 (filename tracker).

Definition final_short_filename (tracker : DownloadProgress) : string :=
  shorten 40 37 (filename tracker).

(** ** The logger and [subprocess] *)

Module logging.
Inductive level : Type := INFO | ERROR.
Definition record : Type := (level * string)%type.
End logging.

Module subprocess.

Inductive target : Type := PIPE | STDOUT | INHERIT.

(** The arguments of a [Popen] call. *)
Record PopenArgs : Type := {
  args : list string;
  stdout : target;
  stderr : target;
  universal_newlines : bool;
  bufsize : Z;
  shell : bool
}.

(** A process that was started: the text it writes, then its exit code. *)
Record Process : Type := {
  output : Stream string;
  returncode : Z
}.

(** What the operating system is asked to execute on POSIX: with
    [shell=True] and a list, the first item is the command text of
    [/bin/sh -c] and the other items are arguments of the shell. *)
Definition posix_argv (call : PopenArgs) : list string :=
  if shell call then "/bin/sh" :: "-c" :: args call else args call.

End subprocess.
Import subprocess.

(** What [download_video] works on: the progress object it was passed, the
    shared log, and the processes it asked for. *)
Record Runner : Type := {
  progress_obj : DownloadProgress;
  log : list logging.record;
  launched : list PopenArgs
}.

Definition RunnerM := M exception Runner.

Definition with_progress (f : DownloadProgress -> DownloadProgress)
    (st : Runner) : Runner :=
  {| progress_obj := f (progress_obj st);
     log := log st; launched := launched st |}.

Definition logged (lvl : logging.level) (msg : string) (st : Runner)
  : Runner :=
  {| progress_obj := progress_obj st;
     log := log st ++ [(lvl, msg)];
     launched := launched st |}.

Definition asked (call : PopenArgs) (st : Runner) : Runner :=
  {| progress_obj := progress_obj st; log := log st;
     launched := launched st ++ [call] |}.

(** An assignment to an attribute of [progress_obj], or a call of one of
    its methods. *)
Definition on_progress (f : DownloadProgress -> DownloadProgress)
  : RunnerM unit :=
  modify (with_progress f).

Definition logger_write (lvl : logging.level) (msg : string) : RunnerM unit :=
  modify (logged lvl msg).

Definition logger_info := logger_write logging.INFO.
Definition logger_error := logger_write logging.ERROR.

(** [re.compile(pattern)] *)
Definition re_compile (pattern : string) : RunnerM Re.regex :=
  match Re.parse pattern with
  | Some r => ret r
  | None => raise (Exc ReError ("bad pattern: " ++ pattern))
  end.

(** [m.group(1)] *)
Definition group (m : Re.Match) : RunnerM string :=
  match Re.group_1 m with
  | Some g => ret g
  | None => raise (Exc IndexError "no such group")
  end.

(** The seven compiled patterns of lines 147-153. *)
Record Patterns : Type := {
  percentage_pattern : Re.regex;
  speed_pattern : Re.regex;
  eta_pattern : Re.regex;
  size_pattern : Re.regex;
  downloaded_pattern : Re.regex;
  filename_pattern : Re.regex;
  complete_pattern : Re.regex
}.

(** [if m: progress_obj.<field> = m.group(1)] *)
Definition assign_group (m : option Re.Match)
    (set : string -> DownloadProgress -> DownloadProgress) : RunnerM unit :=
  match m with
  | Some m => g <- group m ;; on_progress (set g)
  | None => ret tt
  end.

(** The body of [for line in process.stdout] (lines 156-188). *)
Definition download_video_line (pats : Patterns) (line : string)
  : RunnerM unit :=
  let line := Str.strip line in
  logger_info line ;;
  (* Check for filename *)
  assign_group (Re.search (filename_pattern pats) line)
    DownloadProgress.with_filename ;;
  (* Check for percentage *)
  match Re.search (percentage_pattern pats) line with
  | Some percentage_match =>
      g <- group percentage_match ;;
      v <- lift (float g) ;;
      on_progress (DownloadProgress.with_percentage v) ;;
      (* size, speed, ETA and downloaded amount in the same line *)
      assign_group (Re.search (size_pattern pats) line)
        DownloadProgress.with_size ;;
      assign_group (Re.search (speed_pattern pats) line)
        DownloadProgress.with_speed ;;
      assign_group (Re.search (eta_pattern pats) line)
        DownloadProgress.with_eta ;;
      assign_group (Re.search (downloaded_pattern pats) line)
        DownloadProgress.with_downloaded
  | None => ret tt
  end ;;
  (* Check for completion *)
  match Re.search (complete_pattern pats) line with
  | Some _ => on_progress DownloadProgress.set_completed
  | None => ret tt
  end.

(** Lines 147-153: the patterns to match progress information. *)
Definition compile_patterns : RunnerM Patterns :=
  percentage_pattern <- re_compile "\[download\]\s+([\d.]+)%" ;;
  speed_pattern <- re_compile "at\s+([\d.]+\s*[KMGT]?iB/s)" ;;
  eta_pattern <- re_compile "ETA\s+([\d:]+)" ;;
  size_pattern <- re_compile "of\s+([\d.]+\s*[KMGT]?iB)" ;;
  downloaded_pattern <- re_compile "([\d.]+\s*[KMGT]?iB)\s+at" ;;
  filename_pattern <- re_compile "Destination:\s+(.+)" ;;
  complete_pattern <- re_compile "\[download\]\s+100%" ;;
  ret {| percentage_pattern := percentage_pattern;
         speed_pattern := speed_pattern;
         eta_pattern := eta_pattern;
         size_pattern := size_pattern;
         downloaded_pattern := downloaded_pattern;
         filename_pattern := filename_pattern;
         complete_pattern := complete_pattern |}.

Definition result : Type := (string * bool * string)%type.

(** Lines 190-200: [process.wait()] and the two branches on the exit
    code. *)
Definition download_video_exit (url : string) (process : Process)
  : RunnerM result :=
  if (returncode process =? 0)%Z then
    st <- get ;;
    (if negb (completed (progress_obj st))
     then on_progress DownloadProgress.set_completed
     else ret tt) ;;
    logger_info ("SUCCESS: " ++ url) ;;
    ret (url, true, "Download completed")
  else
    let error_msg :=
      "FAILED: " ++ url ++ " - yt-dlp returned code "
      ++ Str.of_Z (returncode process) in
    on_progress (DownloadProgress.set_error error_msg) ;;
    logger_error error_msg ;;
    ret (url, false, error_msg).

Section DownloadVideo.

(** [sys.executable], and the operating system's answer to a [Popen]
    call: an exception, or a process with all it is going to do. *)
Variable sys_executable : string.
Variable Popen : PopenArgs -> exception + Process.

(** Lines 120-140. *)
Definition command (url output_template quality : string)
    (extract_audio : bool) : list string :=
  [sys_executable; "-m"; "yt_dlp"; "--newline"; "-o"; output_template;
   "--no-warnings"]
  ++ (if negb (String.eqb quality "best")
      then ["-S"; "res:" ++ quality ++ ",ext:mp4:m4a"] else [])
  ++ (if extract_audio then ["-x"; "--audio-format"; "mp3"] else [])
  ++ ["--add-metadata"; "--no-overwrites"; "--continue";
      "--restrict-filenames"; url].

(** The call of lines 143-144. *)
Definition popen_call (command : list string) : PopenArgs :=
  {| args := command; stdout := PIPE; stderr := STDOUT;
     universal_newlines := true; bufsize := 1; shell := true |}.

Definition subprocess_Popen (call : PopenArgs) : RunnerM Process :=
  modify (asked call) ;;
  lift (Popen call).

(** The [try] block, lines 143-200. *)
Definition download_video_try (url : string) (command : list string)
  : RunnerM result :=
  process <- subprocess_Popen (popen_call command) ;;
  patterns <- compile_patterns ;;
  iterate (fun e => e) (output process) (download_video_line patterns) ;;
  download_video_exit url process.

(** The [except Exception as e] block, lines 202-206. *)
Definition download_video_except (url : string) (e : exception)
  : RunnerM result :=
  let error_msg := "Exception for " ++ url ++ ": " ++ exc_str e in
  on_progress (DownloadProgress.set_error error_msg) ;;
  logger_error error_msg ;;
  ret (url, false, error_msg).

(** [download_video(url, output_template, quality, extract_audio, logger,
    progress_obj)]; the logger and the progress object are in the state. *)
Definition download_video (url output_template quality : string)
    (extract_audio : bool) : RunnerM result :=
  let command := command url output_template quality extract_audio in
  try_except (download_video_try url command) (fun _ => true)
    (download_video_except url).

End DownloadVideo.

(** ** The URL sources and [main] *)

Module argparse.
(** The namespace [parser.parse_args()] returns. *)
Record Namespace : Type := {
  urls : option (list string);
  file : option string;
  csv : option string;
  output_dir : string;
  quality : string;
  extract_audio : bool;
  threads : Z;
  retries : Z
}.
End argparse.

(** What [main] works on: what was printed, and the log. *)
Record World : Type := {
  console : list string;
  logfile : list logging.record
}.

Definition MainM := M base_exception World.

Definition print {L : Type} (text : string)
  : M base_exception (L * World) unit :=
  modify (fun st => (fst st, {| console := console (snd st) ++ [text];
                                logfile := logfile (snd st) |})).

Definition main_print (text : string) : MainM unit :=
  modify (fun w => {| console := console w ++ [text]; logfile := logfile w |}).

Definition main_log (lvl : logging.level) (msg : string) : MainM unit :=
  modify (fun w => {| console := console w;
                      logfile := logfile w ++ [(lvl, msg)] |}).

(** [sys.exit(code)] *)
Definition sys_exit {S A} (code : Z) : M base_exception S A :=
  raise (SystemExit code).

(** A function body with a local variable of type [L]. *)
Definition with_local {E S L A} (init : L) (body : M E (L * S) A) : M E S A :=
  fun s =>
    match body (init, s) with
    | (r, (_, s')) => (r, s')
    end.

(** [except <class>:] and [except (<class>, ...):] *)
Definition except_classes (classes : list exc_class) (e : base_exception)
  : bool :=
  match e with
  | Raised e => existsb (exc_class_eqb (exc_type e)) classes
  | _ => false
  end.

(** The exit status of the interpreter after [main()]. *)
Definition exit_status (r : base_exception + unit) : Z :=
  match r with
  | inr _ => 0
  | inl (SystemExit code) => code
  | inl (Raised _) => 1
  | inl KeyboardInterrupt => 130
  end.

Section Main.

Variable sys_executable : string.
(** [subprocess.run] with [check=True]: it returns, or raises. *)
Variable subprocess_run : PopenArgs -> option exception.
(** [open(path, 'r')] and the lines read from it; [csv.reader] over it. *)
Variable open_text : string -> exception + Stream string.
Variable open_csv : string -> exception + Stream (list string).
(** [output_dir.mkdir(parents=True, exist_ok=True)] and the
    [logging.FileHandler] on [download.log] in that directory. *)
Variable mkdir : string -> option exception.
Variable open_log : string -> option exception.
(** Lines 327-384: the trackers, the renderer thread, the thread pool and
    the summary. *)
Variable run_downloads : argparse.Namespace -> list string -> MainM unit.

(** The call of lines 25-26 ([capture_output=True]; no [shell] argument). *)
Definition version_call : PopenArgs :=
  {| args := [sys_executable; "-m"; "yt_dlp"; "--version"];
     stdout := PIPE; stderr := PIPE;
     universal_newlines := false; bufsize := (-1);
     shell := false |}.

Definition check_yt_dlp_installed : MainM bool :=
  try_except
    (match subprocess_run version_call with
     | None => ret true
     | Some e => raise (Raised e)
     end)
    (except_classes [CalledProcessError; TimeoutExpired; FileNotFoundError])
    (fun _ => ret false).

(** [return args.urls]; [main] calls it when [args.urls] is a non-empty
    list. *)
Definition read_urls_from_args (args : argparse.Namespace) : list string :=
  match argparse.urls args with
  | Some urls => urls
  | None => []
  end.

Definition opened {A} (r : exception + A) : base_exception + A :=
  match r with
  | inl e => inl (Raised e)
  | inr f => inr f
  end.

Definition read_urls_from_file (file_path : string)
  : MainM (list string) :=
  with_local []
    (try_except
       (f <- lift (opened (open_text file_path)) ;;
        iterate Raised f (fun line =>
          let line := Str.strip line in
          if negb (String.eqb line "") && negb (Str.startswith "#" line)
          then modify (fun st => ((fst st ++ [line])%list, snd st))
          else ret tt))
       (except_classes [FileNotFoundError])
       (fun _ => print ("Error: File " ++ file_path ++ " not found.")) ;;
     st <- get ;;
     ret (fst st)).

Definition read_urls_from_csv (file_path : string)
  : MainM (list string) :=
  with_local []
    (try_except
       (reader <- lift (opened (open_csv file_path)) ;;
        iterate Raised reader (fun row =>
          match row with
          | [] => ret tt
          | first :: _ =>
              let url := Str.strip first in
              if negb (String.eqb url "")
              then modify (fun st => ((fst st ++ [url])%list, snd st))
              else ret tt
          end))
       (except_classes [FileNotFoundError])
       (fun _ => print ("Error: CSV file " ++ file_path ++ " not found.")) ;;
     st <- get ;;
     ret (fst st)).

Definition raise_if (r : option exception) : MainM unit :=
  match r with
  | Some e => raise (Raised e)
  | None => ret tt
  end.

(** Truth value of [args.urls]: a non-empty list. *)
Definition given_list {A} (v : option (list A)) : bool :=
  match v with
  | Some (_ :: _) => true
  | _ => false
  end.

(** [args.file] and [args.csv] when their truth value is true: a non-empty
    text. *)
Definition nonempty_text (v : option string) : option string :=
  match v with
  | Some (String c s) => Some (String c s)
  | _ => None
  end.

(** [main], from the parsed arguments on. *)
Definition main (args : argparse.Namespace) : MainM unit :=
  installed <- check_yt_dlp_installed ;;
  if negb installed then
    main_print "ERROR: yt-dlp Python module is not installed." ;;
    main_print "Please install it with: pip install yt-dlp" ;;
    sys_exit 1
  else
    raise_if (mkdir (argparse.output_dir args)) ;;
    raise_if (open_log (argparse.output_dir args)) ;;
    main_log logging.INFO "Script started with progress tracking" ;;
    (* Get URLs *)
    urls <-
      (if given_list (argparse.urls args) then
         ret (read_urls_from_args args)
       else
         match nonempty_text (argparse.file args) with
         | Some file => read_urls_from_file file
         | None =>
             match nonempty_text (argparse.csv args) with
             | Some csv => read_urls_from_csv csv
             | None =>
                 (* parser.print_help() *)
                 main_print "usage: video_downloader.py" ;;
                 sys_exit 1
             end
         end) ;;
    match urls with
    | [] =>
        main_log logging.ERROR "No URLs found" ;;
        sys_exit 1
    | _ :: _ =>
        main_log logging.INFO
          ("Found " ++ Str.of_Z (Z.of_nat (List.length urls)) ++ " URLs") ;;
        run_downloads args urls
    end.

End Main.

(** * Vocabulary of the statements *)

(** The regex a pattern text stands for ([[]] outside the fragment, which
    none of the seven is: [compile_patterns_run]). *)
Definition compiled (pattern : string) : Re.regex :=
  match Re.parse pattern with
  | Some r => r
  | None => []
  end.

(** The patterns [compile_patterns] returns. *)
Definition patterns : Patterns :=
  {| percentage_pattern := compiled "\[download\]\s+([\d.]+)%";
     speed_pattern := compiled "at\s+([\d.]+\s*[KMGT]?iB/s)";
     eta_pattern := compiled "ETA\s+([\d:]+)";
     size_pattern := compiled "of\s+([\d.]+\s*[KMGT]?iB)";
     downloaded_pattern := compiled "([\d.]+\s*[KMGT]?iB)\s+at";
     filename_pattern := compiled "Destination:\s+(.+)";
     complete_pattern := compiled "\[download\]\s+100%" |}.

(** The pattern has a group. *)
Fixpoint closes (r : Re.regex) : bool :=
  match r with
  | [] => false
  | Re.GroupClose :: _ => true
  | _ :: r' => closes r'
  end.

(** Nodes that neither open nor close a group. *)
Fixpoint plain (r : Re.regex) : bool :=
  match r with
  | [] => true
  | Re.Atom _ _ :: r' => plain r'
  | _ => false
  end.

(** The text a pattern extracts from a line, if it matches. *)
Definition extracted (r : Re.regex) (line : string) : option string :=
  match Re.search r line with
  | Some m => Re.group_1 m
  | None => None
  end.

(** [set] applied to what [r] extracts from the line, if anything. *)
Definition apply_field (r : Re.regex) (line : string)
    (set : string -> DownloadProgress -> DownloadProgress)
    (p : DownloadProgress) : DownloadProgress :=
  match extracted r line with
  | Some g => set g p
  | None => p
  end.

(** [set_completed] when the line has the completion marker. *)
Definition mark_complete (line : string) (p : DownloadProgress)
  : DownloadProgress :=
  match Re.search (complete_pattern patterns) line with
  | Some _ => DownloadProgress.set_completed p
  | None => p
  end.

(** The fields a line with a percentage brings besides the percentage. *)
Definition same_line_fields (line : string) (p : DownloadProgress)
  : DownloadProgress :=
  apply_field (downloaded_pattern patterns) line
    DownloadProgress.with_downloaded
    (apply_field (eta_pattern patterns) line DownloadProgress.with_eta
       (apply_field (speed_pattern patterns) line
          DownloadProgress.with_speed
          (apply_field (size_pattern patterns) line
             DownloadProgress.with_size p))).

(** The filename a line brings. *)
Definition named (line : string) (p : DownloadProgress)
  : DownloadProgress :=
  apply_field (filename_pattern patterns) line
    DownloadProgress.with_filename p.

(** A new record for a single task, an empty log, no process yet. *)
Definition fresh (url : string) : Runner :=
  {| progress_obj := DownloadProgress.init url 1 1;
     log := []; launched := [] |}.

(** The progress object after one line. *)
Definition after_line (raw : string) (st : Runner) : DownloadProgress :=
  progress_obj (snd (download_video_line patterns raw st)).

(** [advances p p']: the error and the identity of the task are the same,
    and a completed record is still completed. *)
Definition advances (p p' : DownloadProgress) : Prop :=
  error p' = error p
  /\ (completed p = true -> completed p' = true)
  /\ url p' = url p /\ index p' = index p /\ total p' = total p.

(** The line has no percentage token, or one that [float] accepts. *)
Definition line_parses (raw : string) : bool :=
  match extracted (percentage_pattern patterns) (Str.strip raw) with
  | Some g =>
      match float g with
      | inr _ => true
      | inl _ => false
      end
  | None => true
  end.



(** A process that prints a completion line, after which reading its
    output fails. *)
Definition completed_then_undecodable : Process :=
  {| output :=
       {| lines := ["[download] 100% of 120.00MiB in 00:30"];
          failure :=
            Some (Exc UnicodeDecodeError
                    "'utf-8' codec can't decode byte 0xff in position 0: invalid start byte") |};
     returncode := 0 |}.

(** What the spec asks of a completed record. *)
Definition complete_fields (p : DownloadProgress) : Prop :=
  downloaded p = size p /\ percentage p = 100%Q.

(** The world after the message of line 67 was printed. *)
Definition file_not_found_printed (file_path : string) (w : World) : World :=
  {| console := console w ++ ["Error: File " ++ file_path ++ " not found."];
     logfile := logfile w |}.

(** Lines and processes the statements are tried on. *)
Definition scenario_line : string :=
  "[download]  45.2% of 120.00MiB at 3.50MiB/s ETA 00:30".

Definition rate_only_line : string := "[info] Downloading at 3.50MiB/s".

Definition garbled_line : string := "[download] 1.2.3% of 120.00MiB".

Definition completion_line : string :=
  "[download] 100% of 120.00MiB in 00:30".

Definition later_line : string :=
  "[download]  45.2% of ~ 3.00MiB at 3.50MiB/s ETA 00:30".

Definition quiet_process (code : Z) : Process :=
  {| output := {| lines := ["[download] Destination: clip.mp4";
                            scenario_line];
                  failure := None |};
     returncode := code |}.

Definition undecodable_process (code : Z) : Process :=
  {| output :=
       {| lines := [scenario_line];
          failure :=
            Some (Exc UnicodeDecodeError
                    "'utf-8' codec can't decode byte 0xff in position 0: invalid start byte") |};
     returncode := code |}.


(** What [read_urls_from_file] keeps of a stripped line (line 64). *)
Definition keeps (line : string) : bool :=
  negb (String.eqb line "") && negb (Str.startswith "#" line).

(** The URLs in the lines of a file. *)
Definition urls_of_lines (raws : list string) : list string :=
  filter keeps (map Str.strip raws).

(** The URLs in the rows of a CSV file: the stripped first cells that are
    not empty. *)
Definition urls_of_rows (rows : list (list string)) : list string :=
  filter (fun url => negb (String.eqb url ""))
    (flat_map (fun row => match row with
                          | [] => []
                          | first :: _ => [Str.strip first]
                          end) rows).

(** The world after the message of line 81 was printed. *)
Definition csv_not_found_printed (file_path : string) (w : World) : World :=
  {| console :=
       console w ++ ["Error: CSV file " ++ file_path ++ " not found."];
     logfile := logfile w |}.

(** Text without a whitespace character. *)
Definition spaceless (s : string) : bool :=
  Str.forallb (fun c => negb (Str.isspace c)) s.

(** A line of a URL file as a person writes it: the URL and a newline. *)
Definition written_line (url : string) : string :=
  url ++ String Str.newline "".

(** The log record of an output line. *)
Definition line_record (raw : string) : logging.record :=
  (logging.INFO, Str.strip raw).

(** The last record [download_video] logs for a result. *)
Definition closing_record (url : string) (ok : bool) (msg : string)
  : logging.record :=
  if ok then (logging.INFO, "SUCCESS: " ++ url) else (logging.ERROR, msg).

(** The tracker has left the downloading state. *)
Definition finished (tracker : DownloadProgress) : bool :=
  completed tracker || DownloadProgress.has_error tracker.

(** The world after the two messages of lines 300-301 were printed. *)
Definition not_installed_printed (w : World) : World :=
  {| console :=
       console w ++ ["ERROR: yt-dlp Python module is not installed.";
                     "Please install it with: pip install yt-dlp"];
     logfile := logfile w |}.

(** The world with more records in the log. *)
Definition with_logs (records : list logging.record) (w : World) : World :=
  {| console := console w; logfile := logfile w ++ records |}.

Definition started_record : logging.record :=
  (logging.INFO, "Script started with progress tracking").

(** The record of line 325. *)
Definition found_record (urls : list string) : logging.record :=
  (logging.INFO,
   "Found " ++ Str.of_Z (Z.of_nat (List.length urls)) ++ " URLs").

(** The pattern of a text without special characters: one node per
    character. *)
Fixpoint literal (text : string) : Re.regex :=
  match text with
  | EmptyString => []
  | String c text' =>
      Re.Atom (Re.Single (Re.ItChar c)) Re.Once :: literal text'
  end.

(** An environment for [main] in which everything works and the URL file
    is [f]. *)
Definition args_with_file : argparse.Namespace :=
  {| argparse.urls := None; argparse.file := Some "links.txt";
     argparse.csv := None; argparse.output_dir := "./downloads";
     argparse.quality := "best"; argparse.extract_audio := false;
     argparse.threads := 1; argparse.retries := 2 |}.

Definition args_with_urls : argparse.Namespace :=
  {| argparse.urls := Some ["https://a.example/1"; "https://b.example/2"];
     argparse.file := None;
     argparse.csv := None; argparse.output_dir := "./downloads";
     argparse.quality := "best"; argparse.extract_audio := false;
     argparse.threads := 1; argparse.retries := 2 |}.

Definition empty_world : World := {| console := []; logfile := [] |}.

(** * Properties *)

(** ** The patterns of the program *)

(** All seven patterns are in the fragment: compiling them raises nothing
    and changes nothing. *)
Lemma compile_patterns_run (st : Runner) :
  compile_patterns st = (inr patterns, st).
Proof. reflexivity. Qed.

(** ** Group 1 of a match *)

Lemma attempt_some {A} (f : nat -> option A) lo k x :
  Re.attempt f lo k = Some x -> exists j, lo <= j <= k /\ f j = Some x.
Proof.
  induction k as [|k IH]; simpl.
  - destruct (0 <? lo) eqn:Hlo; [discriminate|].
    apply Nat.ltb_ge in Hlo.
    destruct (f 0) eqn:Hf; [|discriminate].
    intros [= <-]. exists 0. split; [lia | assumption].
  - destruct (S k <? lo) eqn:Hlo; [discriminate|].
    apply Nat.ltb_ge in Hlo.
    destruct (f (S k)) eqn:Hf.
    + intros [= <-]. exists (S k). split; [lia | assumption].
    + intros H. destruct (IH H) as (j & Hj & Hfj).
      exists j. split; [lia | assumption].
Qed.

Lemma match_here_group (r : Re.regex) :
  forall s o g1 g,
    Re.match_here r s o g1 = Some g ->
    closes r = true \/ g1 <> None ->
    g <> None.
Proof.
  induction r as [|n r IH]; intros s o g1 g Hm Hc; simpl in Hm.
  - injection Hm as <-. destruct Hc as [Hc | Hc]; [discriminate | assumption].
  - destruct n as [cs q | | ].
    + apply attempt_some in Hm. destruct Hm as (j & _ & Hm).
      apply (IH _ _ _ _ Hm). exact Hc.
    + apply (IH _ _ _ _ Hm). exact Hc.
    + apply (IH _ _ _ _ Hm). right. discriminate.
Qed.

Lemma search_group (r : Re.regex) (s : string) (m : Re.Match) :
  closes r = true ->
  Re.search r s = Some m ->
  exists g, Re.group_1 m = Some g.
Proof.
  intros Hc. induction s as [|c s IH]; simpl.
  - destruct (Re.match_here r "" "" None) as [g|] eqn:Hm; [|discriminate].
    intros [= <-]. simpl.
    destruct g as [g|]; [eauto|].
    exfalso. apply (match_here_group _ _ _ _ _ Hm); auto.
  - destruct (Re.match_here r (String c s) (String c s) None) as [g|] eqn:Hm.
    + intros [= <-]. simpl.
      destruct g as [g|]; [eauto|].
      exfalso. apply (match_here_group _ _ _ _ _ Hm); auto.
    + exact IH.
Qed.

(** ** The text of group 1 of the percentage pattern *)

Lemma match_here_plain (r : Re.regex) :
  plain r = true ->
  forall s o g1 g, Re.match_here r s o g1 = Some g -> g = g1.
Proof.
  induction r as [|n r IH]; intros Hp s o g1 g Hm; simpl in *.
  - congruence.
  - destruct n as [cs q | | ]; try discriminate.
    apply attempt_some in Hm. destruct Hm as (j & _ & Hm).
    exact (IH Hp _ _ _ _ Hm).
Qed.

Lemma match_here_after_plain (r1 r2 : Re.regex) :
  plain r1 = true ->
  forall s o g1 g,
    Re.match_here (r1 ++ r2)%list s o g1 = Some g ->
    exists s', Re.match_here r2 s' o g1 = Some g.
Proof.
  induction r1 as [|n r1 IH]; intros Hp s o g1 g Hm; simpl in *.
  - eauto.
  - destruct n as [cs q | | ]; try discriminate.
    apply attempt_some in Hm. destruct Hm as (j & _ & Hm).
    exact (IH Hp _ _ _ _ Hm).
Qed.

Lemma length_drop (k : nat) :
  forall s, String.length (Str.drop k s) = String.length s - k.
Proof.
  induction k as [|k IH]; intros s.
  - destruct s; simpl; lia.
  - destruct s as [|c s]; simpl; [reflexivity | apply IH].
Qed.

Lemma span_length (cs : Re.cset) (s : string) :
  Re.span cs s <= String.length s.
Proof.
  induction s as [|c s IH]; simpl; [lia|].
  destruct (Re.cset_mem cs c); simpl; lia.
Qed.

Lemma take_span (cs : Re.cset) (k : nat) :
  forall s, k <= Re.span cs s ->
            Str.forallb (Re.cset_mem cs) (Str.take k s) = true.
Proof.
  unfold Str.take.
  induction k as [|k IH]; intros s Hk.
  - destruct s; reflexivity.
  - destruct s as [|c s]; simpl in *; [lia|].
    destruct (Re.cset_mem cs c) eqn:Hc; [|lia].
    simpl. apply IH. lia.
Qed.

Lemma most_le_span (q : Re.quant) (n : nat) : Re.most q n <= n.
Proof. unfold Re.most. destruct q; lia. Qed.

(** A pattern [... ( cs q ) ...] with no other group captures text of
    [cs]. *)
Lemma group_of_one_atom (r1 r2 : Re.regex) (cs : Re.cset) (q : Re.quant) :
  plain r1 = true ->
  plain r2 = true ->
  forall s m g,
    Re.search (r1 ++ Re.GroupOpen :: Re.Atom cs q :: Re.GroupClose :: r2)%list
      s
    = Some m ->
    Re.group_1 m = Some g ->
    Str.forallb (Re.cset_mem cs) g = true.
Proof.
  intros Hp1 Hp2.
  assert (Hhere : forall s o g1 g,
             Re.match_here
               (r1 ++ Re.GroupOpen :: Re.Atom cs q :: Re.GroupClose :: r2)%list
               s o g1 = Some (Some g) ->
             Str.forallb (Re.cset_mem cs) g = true).
  { intros s o g1 g Hm.
    destruct (match_here_after_plain _ _ Hp1 _ _ _ _ Hm) as (s' & Hm').
    simpl in Hm'. apply attempt_some in Hm'.
    destruct Hm' as (j & (_ & Hj) & Hm').
    apply (match_here_plain _ Hp2) in Hm'. injection Hm' as ->.
    pose proof (most_le_span q (Re.span cs s')).
    pose proof (span_length cs s').
    rewrite length_drop.
    replace (String.length s' - (String.length s' - j)) with j by lia.
    apply take_span. lia. }
  induction s as [|c s IH]; intros m g; simpl.
  - destruct (Re.match_here _ "" "" None) as [g0|] eqn:Hm; [|discriminate].
    intros [= <-]. simpl. intros ->. exact (Hhere _ _ _ _ Hm).
  - destruct (Re.match_here _ (String c s) (String c s) None)
      as [g0|] eqn:Hm.
    + intros [= <-]. simpl. intros ->. exact (Hhere _ _ _ _ Hm).
    + apply IH.
Qed.

(** The text the program passes to [float] consists of digits and points:
    the model of [float] covers every call. *)
Lemma percentage_text_is_digits_and_points (line : string) m g :
  Re.search (percentage_pattern patterns) line = Some m ->
  Re.group_1 m = Some g ->
  Str.forallb digit_or_dot g = true.
Proof.
  intros Hs Hg.
  pose proof (group_of_one_atom
                (firstn 11 (percentage_pattern patterns))
                (skipn 14 (percentage_pattern patterns))
                (Re.Class [Re.ItDigit; Re.ItChar "."]) Re.OneOrMore
                eq_refl eq_refl line m g Hs Hg) as H.
  clear Hs Hg. induction g as [|c g IH]; simpl in *; [reflexivity|].
  apply andb_prop in H. destruct H as [Hc H].
  rewrite (IH H), andb_true_r.
  unfold digit_or_dot. rewrite orb_false_r in Hc.
  rewrite Ascii.eqb_sym. exact Hc.
Qed.

(** ** What one line does to the state *)

Lemma with_progress_id (st : Runner) : with_progress (fun p => p) st = st.
Proof. destruct st; reflexivity. Qed.

Lemma assign_group_run (r : Re.regex) line set (st : Runner) :
  closes r = true ->
  assign_group (Re.search r line) set st
  = (inr tt, with_progress (apply_field r line set) st).
Proof.
  intros Hc. unfold assign_group, apply_field, extracted.
  destruct (Re.search r line) as [m|] eqn:Hs.
  - destruct (search_group _ _ _ Hc Hs) as (g & Hg).
    unfold bind, group. rewrite Hg. reflexivity.
  - unfold ret. destruct st; reflexivity.
Qed.

Section Line.

Variable raw : string.
Local Abbreviation line := (Str.strip raw).

Lemma line_without_percentage (st : Runner) :
  Re.search (percentage_pattern patterns) line = None ->
  download_video_line patterns raw st
  = (inr tt,
     with_progress (fun p => mark_complete line (named line p))
       (logged logging.INFO line st)).
Proof.
  intros Hp. unfold download_video_line. cbv zeta.
  unfold bind at 1. unfold logger_info, logger_write, modify at 1.
  unfold bind at 1. rewrite assign_group_run by reflexivity.
  rewrite Hp. unfold bind at 1. unfold ret at 1.
  unfold mark_complete, named.
  destruct (Re.search (complete_pattern patterns) line); reflexivity.
Qed.

Lemma line_with_percentage (st : Runner) m g v :
  Re.search (percentage_pattern patterns) line = Some m ->
  Re.group_1 m = Some g ->
  float g = inr v ->
  download_video_line patterns raw st
  = (inr tt,
     with_progress
       (fun p => mark_complete line
                   (same_line_fields line
                      (DownloadProgress.with_percentage v (named line p))))
       (logged logging.INFO line st)).
Proof.
  intros Hp Hg Hv. unfold download_video_line. cbv zeta.
  unfold bind at 1. unfold logger_info, logger_write, modify at 1.
  unfold bind at 1. rewrite assign_group_run by reflexivity.
  rewrite Hp. unfold bind at 1. unfold bind at 1.
  unfold group. rewrite Hg. unfold ret at 1.
  unfold bind at 1. rewrite Hv. unfold lift, ret at 1.
  unfold bind at 1. unfold on_progress at 1. unfold modify at 1.
  unfold bind at 1. rewrite assign_group_run by reflexivity.
  unfold bind at 1. rewrite assign_group_run by reflexivity.
  unfold bind at 1. rewrite assign_group_run by reflexivity.
  rewrite assign_group_run by reflexivity.
  unfold mark_complete, same_line_fields, named.
  destruct (Re.search (complete_pattern patterns) line); reflexivity.
Qed.

Lemma line_with_bad_percentage (st : Runner) m g e :
  Re.search (percentage_pattern patterns) line = Some m ->
  Re.group_1 m = Some g ->
  float g = inl e ->
  download_video_line patterns raw st
  = (inl e, with_progress (named line) (logged logging.INFO line st)).
Proof.
  intros Hp Hg Hv. unfold download_video_line. cbv zeta.
  unfold bind at 1. unfold logger_info, logger_write, modify at 1.
  unfold bind at 1. rewrite assign_group_run by reflexivity.
  rewrite Hp. unfold bind at 1. unfold bind at 1.
  unfold group. rewrite Hg. unfold ret at 1.
  unfold bind at 1. rewrite Hv. reflexivity.
Qed.

End Line.

(** ** C5: the scenario line *)

(** C5, as the code has it: whatever the record held before, the scenario
    line runs without an exception and sets the percentage to 45.2, the
    size to 120.00MiB, the speed to 3.50MiB/s, the eta to 00:30 and also
    the downloaded amount to 120.00MiB (the token before [at]); filename,
    completed, error, url, index and total keep their values. *)
Theorem C5_scenario_line (st : Runner) :
  let p := progress_obj st in
  let p' := after_line scenario_line st in
  fst (download_video_line patterns scenario_line st) = inr tt
  /\ (percentage p' == 45.2)%Q
  /\ size p' = "120.00MiB"
  /\ speed p' = "3.50MiB/s"
  /\ eta p' = "00:30"
  /\ downloaded p' = "120.00MiB"
  /\ filename p' = filename p
  /\ completed p' = completed p
  /\ error p' = error p
  /\ url p' = url p /\ index p' = index p /\ total p' = total p.
Proof.
  assert (Hm : exists m,
             Re.search (percentage_pattern patterns) (Str.strip scenario_line)
             = Some m /\ Re.group_1 m = Some "45.2").
  { eexists. split; vm_compute; reflexivity. }
  destruct Hm as (m & Hs & Hg).
  assert (Hv : float "45.2" = inr (226 # 5)%Q) by reflexivity.
  unfold after_line.
  rewrite (line_with_percentage scenario_line st m _ _ Hs Hg Hv).
  cbv zeta. unfold fst, snd, with_progress, logged, progress_obj.
  destruct st as [p lg la].
  repeat split; vm_compute; reflexivity.
Qed.

(** C5 as worded fails: on a new record the scenario line changes the
    downloaded amount, from 0B to 120.00MiB. *)
Lemma C5_downloaded_is_overwritten :
  downloaded (progress_obj (fresh "https://example.com/v")) = "0B"
  /\ downloaded (after_line scenario_line (fresh "https://example.com/v"))
     = "120.00MiB".
Proof. split; vm_compute; reflexivity. Qed.

(** ** C6: which fields a line can set *)

(** C6, as the code has it.  A line without a percentage token raises
    nothing and can set the filename and the completion only: speed, eta
    and size keep their values whatever else the line contains.  A line
    with a percentage token that [float] accepts sets the percentage and,
    from the same line, every one of size, speed, eta and downloaded amount
    whose pattern matches, besides the filename and the completion. *)
Theorem C6_fields_of_a_line (raw : string) (st : Runner) :
  let line := Str.strip raw in
  let p := progress_obj st in
  (Re.search (percentage_pattern patterns) line = None ->
   download_video_line patterns raw st
   = (inr tt,
      with_progress (fun p => mark_complete line (named line p))
        (logged logging.INFO line st))
   /\ speed (after_line raw st) = speed p
   /\ eta (after_line raw st) = eta p
   /\ size (after_line raw st) = size p)
  /\ (forall g v,
        extracted (percentage_pattern patterns) line = Some g ->
        float g = inr v ->
        download_video_line patterns raw st
        = (inr tt,
           with_progress
             (fun p => mark_complete line
                         (same_line_fields line
                            (DownloadProgress.with_percentage v
                               (named line p))))
             (logged logging.INFO line st))).
Proof.
  cbv zeta. split.
  - intros Hp. unfold after_line.
    rewrite (line_without_percentage raw st Hp). split; [reflexivity|].
    unfold snd, with_progress, logged, progress_obj.
    destruct st as [p lg la].
    unfold mark_complete, named, apply_field.
    destruct (Re.search (complete_pattern patterns) (Str.strip raw));
      destruct (extracted (filename_pattern patterns) (Str.strip raw));
      repeat split; reflexivity.
  - intros g v Hg Hv. unfold extracted in Hg.
    destruct (Re.search (percentage_pattern patterns) (Str.strip raw))
      as [m|] eqn:Hs; [|discriminate].
    exact (line_with_percentage raw st m g v Hs Hg Hv).
Qed.

Lemma C6_fields_of_a_line_witness :
  speed (after_line rate_only_line (fresh "u")) = "0B/s"
  /\ after_line scenario_line (fresh "u")
     = mark_complete scenario_line
         (same_line_fields scenario_line
            (DownloadProgress.with_percentage (226 # 5)%Q
               (named scenario_line (DownloadProgress.init "u" 1 1)))).
Proof.
  split.
  - apply (proj1 (C6_fields_of_a_line rate_only_line (fresh "u"))).
    vm_compute. reflexivity.
  - unfold after_line.
    rewrite (proj2 (C6_fields_of_a_line scenario_line (fresh "u"))
               "45.2" (226 # 5)%Q); [reflexivity | | ];
      vm_compute; reflexivity.
Defined.

(** C6 as worded fails: this line has a transfer-rate token, which the
    speed pattern extracts, and no percentage token; the speed of a new
    record stays 0B/s. *)
Lemma C6_rate_without_percentage :
  extracted (speed_pattern patterns) (Str.strip rate_only_line)
  = Some "3.50MiB/s"
  /\ Re.search (percentage_pattern patterns) (Str.strip rate_only_line) = None
  /\ speed (after_line rate_only_line (fresh "u")) = "0B/s"
  /\ after_line rate_only_line (fresh "u") = progress_obj (fresh "u").
Proof. repeat split; vm_compute; reflexivity. Qed.

(** ** What a line never touches *)

Lemma advances_refl p : advances p p.
Proof. unfold advances. tauto. Qed.

Lemma advances_trans p q r : advances p q -> advances q r -> advances p r.
Proof.
  unfold advances.
  intros (He & Hc & Hu & Hi & Ht) (He' & Hc' & Hu' & Hi' & Ht').
  repeat split; try congruence. auto.
Qed.

Lemma apply_field_advances r line set p :
  (forall g q, advances q (set g q)) ->
  advances p (apply_field r line set p).
Proof.
  intros H. unfold apply_field.
  destruct (extracted r line); [apply H | apply advances_refl].
Qed.

Lemma mark_complete_advances line p : advances p (mark_complete line p).
Proof.
  unfold mark_complete.
  destruct (Re.search (complete_pattern patterns) line).
  - unfold advances. simpl. tauto.
  - apply advances_refl.
Qed.

Lemma named_advances line p : advances p (named line p).
Proof.
  apply apply_field_advances. intros g q. unfold advances. simpl. tauto.
Qed.

Lemma same_line_fields_advances line p :
  advances p (same_line_fields line p).
Proof.
  unfold same_line_fields.
  eapply advances_trans; [|apply apply_field_advances].
  eapply advances_trans; [|apply apply_field_advances].
  eapply advances_trans; [|apply apply_field_advances].
  apply apply_field_advances.
  all: intros g q; unfold advances; simpl; tauto.
Qed.

(** The outcome of a line, and its state as an update of the progress
    object and one more log record. *)
Lemma line_run (raw : string) (st : Runner) :
  exists outcome F,
    download_video_line patterns raw st
    = (outcome,
       with_progress F (logged logging.INFO (Str.strip raw) st))
    /\ forall p, advances p (F p).
Proof.
  destruct (Re.search (percentage_pattern patterns) (Str.strip raw))
    as [m|] eqn:Hs.
  - destruct (search_group (percentage_pattern patterns) _ _ eq_refl Hs)
      as (g & Hg).
    destruct (float g) as [e|v] eqn:Hv.
    + eexists _, _. split.
      * exact (line_with_bad_percentage raw st m g e Hs Hg Hv).
      * intros p. apply named_advances.
    + eexists _, _. split.
      * exact (line_with_percentage raw st m g v Hs Hg Hv).
      * intros p. cbv beta.
        eapply advances_trans; [|apply mark_complete_advances].
        eapply advances_trans; [|apply same_line_fields_advances].
        eapply advances_trans; [apply named_advances|].
        unfold advances. simpl. tauto.
  - eexists _, _. split.
    + exact (line_without_percentage raw st Hs).
    + intros p. cbv beta.
      eapply advances_trans; [apply named_advances|].
      apply mark_complete_advances.
Qed.

Lemma line_advances (raw : string) (st : Runner) :
  advances (progress_obj st) (after_line raw st)
  /\ launched (snd (download_video_line patterns raw st)) = launched st.
Proof.
  unfold after_line.
  destruct (line_run raw st) as (outcome & F & -> & HF).
  destruct st as [p lg la]. simpl. split; [apply HF | reflexivity].
Qed.

Lemma for_each_advances (raws : list string) :
  forall st,
    let st' := snd (for_each raws (download_video_line patterns) st) in
    advances (progress_obj st) (progress_obj st')
    /\ launched st' = launched st.
Proof.
  induction raws as [|raw raws IH]; intros st; cbv zeta.
  - simpl. split; [apply advances_refl | reflexivity].
  - simpl. unfold bind.
    destruct (line_advances raw st) as [Ha Hl]. unfold after_line in Ha.
    destruct (download_video_line patterns raw st) as [[e|[]] s1]; simpl in *.
    + split; assumption.
    + destruct (IH s1) as [Ha' Hl']. split.
      * eapply advances_trans; eassumption.
      * congruence.
Qed.

(** ** Lines whose percentage text is a number *)

Lemma line_parses_run (raw : string) (st : Runner) :
  line_parses raw = true ->
  fst (download_video_line patterns raw st) = inr tt.
Proof.
  unfold line_parses, extracted. intros H.
  destruct (Re.search (percentage_pattern patterns) (Str.strip raw))
    as [m|] eqn:Hs.
  - destruct (Re.group_1 m) as [g|] eqn:Hg.
    + destruct (float g) as [e|v] eqn:Hv; [discriminate|].
      rewrite (line_with_percentage raw st m g v Hs Hg Hv). reflexivity.
    + destruct (search_group (percentage_pattern patterns) _ _ eq_refl Hs)
        as (g & Hg'). congruence.
  - rewrite (line_without_percentage raw st Hs). reflexivity.
Qed.

Lemma for_each_parses (raws : list string) :
  forallb line_parses raws = true ->
  forall st, fst (for_each raws (download_video_line patterns) st) = inr tt.
Proof.
  induction raws as [|raw raws IH]; intros H st; simpl in *.
  - reflexivity.
  - apply andb_prop in H. destruct H as [H1 H2].
    unfold bind. pose proof (line_parses_run raw st H1) as Hr.
    destruct (download_video_line patterns raw st) as [[e|[]] s1];
      simpl in Hr; [discriminate|].
    apply IH. exact H2.
Qed.

(** ** What sets [completed] in a line *)








(** ** One run of [download_video] *)

Lemma exit_zero_run (url : string) (process : Process) (st : Runner) :
  returncode process = 0%Z ->
  download_video_exit url process st
  = (inr (url, true, "Download completed"),
     logged logging.INFO ("SUCCESS: " ++ url)
       (with_progress
          (fun p => if completed p then p
                    else DownloadProgress.set_completed p) st)).
Proof.
  intros Hrc. unfold download_video_exit. rewrite Hrc. simpl.
  unfold bind, get, on_progress, logger_info, logger_write, modify, ret.
  destruct st as [p lg la]. unfold with_progress, logged. simpl.
  destruct (completed p); reflexivity.
Qed.

Lemma exit_nonzero_run (url : string) (process : Process) (st : Runner) :
  returncode process <> 0%Z ->
  let error_msg :=
    "FAILED: " ++ url ++ " - yt-dlp returned code "
    ++ Str.of_Z (returncode process) in
  download_video_exit url process st
  = (inr (url, false, error_msg),
     logged logging.ERROR error_msg
       (with_progress (DownloadProgress.set_error error_msg) st)).
Proof.
  intros Hrc. cbv zeta. unfold download_video_exit.
  apply Z.eqb_neq in Hrc. rewrite Hrc. reflexivity.
Qed.

Section Run.

Variable sys_executable : string.
Variable Popen : PopenArgs -> exception + Process.
Variables video output_template quality : string.
Variable extract_audio : bool.

Local Abbreviation cmd :=
  (command sys_executable video output_template quality extract_audio).
Local Abbreviation call := (popen_call cmd).

Lemma try_when_popen_raises (st : Runner) (e : exception) :
  Popen call = inl e ->
  download_video_try Popen video cmd st = (inl e, asked call st).
Proof.
  intros HP. unfold download_video_try, subprocess_Popen.
  unfold bind at 1. unfold bind at 1. unfold modify at 1.
  rewrite HP. reflexivity.
Qed.

Lemma try_when_started (st : Runner) (process : Process) :
  Popen call = inr process ->
  download_video_try Popen video cmd st
  = match for_each (lines (output process)) (download_video_line patterns)
            (asked call st) with
    | (inl e, s1) => (inl e, s1)
    | (inr _, s1) =>
        match failure (output process) with
        | Some e => (inl e, s1)
        | None => download_video_exit video process s1
        end
    end.
Proof.
  intros HP. unfold download_video_try, subprocess_Popen.
  unfold bind at 1. unfold bind at 1. unfold modify at 1.
  rewrite HP. unfold lift, ret at 1.
  unfold bind at 1. rewrite compile_patterns_run.
  unfold bind at 1. unfold iterate. unfold bind at 1.
  destruct (for_each (lines (output process)) (download_video_line patterns)
              (asked call st)) as [[e|[]] s1]; [reflexivity|].
  destruct (failure (output process)); reflexivity.
Qed.

(** The state the [try] block leaves, whatever its outcome: one more
    process asked for, and a progress object that advanced. *)
Lemma try_advances (st : Runner) :
  let st' := snd (download_video_try Popen video cmd st) in
  launched st' = (launched st ++ [call])%list
  /\ match fst (download_video_try Popen video cmd st) with
     | inl _ => advances (progress_obj st) (progress_obj st')
     | inr (u, ok, msg) =>
         u = video
         /\ url (progress_obj st') = url (progress_obj st)
         /\ (completed (progress_obj st) = true ->
             completed (progress_obj st') = true)
         /\ (if ok
             then completed (progress_obj st') = true
                  /\ error (progress_obj st') = error (progress_obj st)
                  /\ msg = "Download completed"
             else error (progress_obj st') = Some msg
                  /\ exists process,
                       Popen call = inr process
                       /\ returncode process <> 0%Z
                       /\ msg = "FAILED: " ++ video
                                ++ " - yt-dlp returned code "
                                ++ Str.of_Z (returncode process))
     end.
Proof.
  cbv zeta. destruct (Popen call) as [e|process] eqn:HP.
  - rewrite (try_when_popen_raises st e HP). simpl.
    destruct st; simpl. split; [reflexivity | apply advances_refl].
  - rewrite (try_when_started st process HP).
    destruct (for_each_advances (lines (output process)) (asked call st))
      as [Ha Hl].
    destruct (for_each (lines (output process)) (download_video_line patterns)
                (asked call st)) as [[e|[]] s1]; simpl in Ha, Hl.
    + simpl. split; [destruct st; exact Hl|].
      destruct st; exact Ha.
    + destruct (failure (output process)) as [e|].
      * simpl. split; [destruct st; exact Hl|]. destruct st; exact Ha.
      * destruct Ha as (He & Hc & Hu & _).
        destruct (Z.eq_dec (returncode process) 0) as [Hrc|Hrc].
        -- rewrite (exit_zero_run video process s1 Hrc).
           destruct st as [p lg la]; destruct s1 as [p1 lg1 la1];
             simpl in *.
           split; [exact Hl|]. split; [reflexivity|].
           destruct (completed p1) eqn:Hc1; simpl; rewrite ?Hc1; tauto.
        -- rewrite (exit_nonzero_run video process s1 Hrc).
           destruct st as [p lg la]; destruct s1 as [p1 lg1 la1];
             simpl in *.
           split; [exact Hl|]. split; [reflexivity|].
           split; [exact Hu|]. split; [exact Hc|].
           split; [reflexivity|].
           exists process. auto.
Qed.




End Run.

(** ** C1: how the process is started *)

(** C1 does not hold of the code: for every task, the one process
    [download_video] asks for is asked for with [shell=True], so that what
    is executed is [/bin/sh -c] with the interpreter path as the command
    text and the remaining items, the URL among them, as arguments of the
    shell. *)
Theorem C1_popen_goes_through_the_shell
    (sys_executable : string) (Popen : PopenArgs -> exception + Process)
    (url output_template quality : string) (extract_audio : bool)
    (st : Runner) :
  let command :=
    command sys_executable url output_template quality extract_audio in
  launched (snd (download_video sys_executable Popen url output_template
                   quality extract_audio st))
  = (launched st ++ [popen_call command])%list
  /\ shell (popen_call command) = true
  /\ posix_argv (popen_call command) = "/bin/sh" :: "-c" :: command.
Proof.
  cbv zeta. split; [|split; reflexivity].
  unfold download_video, try_except.
  pose proof (try_advances sys_executable Popen url output_template quality
                extract_audio st) as [Hl _].
  destruct (download_video_try Popen url
              (command sys_executable url output_template quality
                 extract_audio) st) as [[e|r] s1]; simpl in Hl.
  - destruct s1; exact Hl.
  - exact Hl.
Qed.

(** The same at a URL with a character the shell gives a meaning to. *)
Example shell_call_example :
  posix_argv
    (popen_call
       (command "/usr/bin/python3" "https://example.com/watch?v=1&list=2"
          "downloads/%(title)s.%(ext)s" "best" false))
  = ["/bin/sh"; "-c"; "/usr/bin/python3"; "-m"; "yt_dlp"; "--newline"; "-o";
     "downloads/%(title)s.%(ext)s"; "--no-warnings"; "--add-metadata";
     "--no-overwrites"; "--continue"; "--restrict-filenames";
     "https://example.com/watch?v=1&list=2"].
Proof. reflexivity. Qed.

(** The other process the program starts, in [check_yt_dlp_installed], is
    started from its argument list, without a shell. *)
Lemma version_call_without_shell (sys_executable : string) :
  shell (version_call sys_executable) = false
  /\ posix_argv (version_call sys_executable)
     = [sys_executable; "-m"; "yt_dlp"; "--version"].
Proof. split; reflexivity. Qed.

(** ** C2: a line the parser raises on *)

(** C2 does not hold of the code: the percentage pattern accepts the text
    1.2.3, [float] does not, and the line raises [ValueError]. *)
Theorem C2_garbled_percentage_raises (st : Runner) :
  download_video_line patterns garbled_line st
  = (inl (Exc ValueError "could not convert string to float: '1.2.3'"),
     logged logging.INFO garbled_line st).
Proof.
  assert (Hm : exists m,
             Re.search (percentage_pattern patterns) (Str.strip garbled_line)
             = Some m /\ Re.group_1 m = Some "1.2.3").
  { eexists. split; vm_compute; reflexivity. }
  destruct Hm as (m & Hs & Hg).
  rewrite (line_with_bad_percentage garbled_line st m "1.2.3" _ Hs Hg eq_refl).
  destruct st as [p lg la]. vm_compute. reflexivity.
Qed.

(** What does hold: a line that none of the filename, percentage and
    completion patterns matches changes nothing but the log. *)
Lemma unmatched_line_is_inert (raw : string) (st : Runner) :
  Re.search (filename_pattern patterns) (Str.strip raw) = None ->
  Re.search (percentage_pattern patterns) (Str.strip raw) = None ->
  Re.search (complete_pattern patterns) (Str.strip raw) = None ->
  download_video_line patterns raw st
  = (inr tt, logged logging.INFO (Str.strip raw) st).
Proof.
  intros Hf Hp Hc. rewrite (line_without_percentage raw st Hp).
  unfold mark_complete, named, apply_field, extracted.
  rewrite Hf, Hc. destruct st; reflexivity.
Qed.

(** The task of a process that prints the garbled line and then exits with
    code 0 is reported as failed. *)
Example garbled_line_fails_the_task :
  fst (download_video "/usr/bin/python3"
         (fun _ => inr {| output := {| lines := [garbled_line];
                                       failure := None |};
                          returncode := 0 |})
         "https://example.com/v" "%(title)s.%(ext)s" "best" false
         (fresh "https://example.com/v"))
  = inr ("https://example.com/v", false,
         "Exception for https://example.com/v: could not convert string to float: '1.2.3'").
Proof. vm_compute. reflexivity. Qed.

(** ** C7 and C8: the exit code *)

(** C7, as the code has it: when the process was started, every line it
    printed went through the parser and its output was read to the end,
    exit code 0 makes [download_video] return the success triple and leave
    the record completed, with or without a completion line in the output;
    the error field is as it was. *)
Theorem C7_exit_code_zero_completes
    (sys_executable : string) (Popen : PopenArgs -> exception + Process)
    (url output_template quality : string) (extract_audio : bool)
    (st : Runner) (process : Process) :
  Popen (popen_call (command sys_executable url output_template quality
                       extract_audio)) = inr process ->
  forallb line_parses (lines (output process)) = true ->
  failure (output process) = None ->
  returncode process = 0%Z ->
  let out := download_video sys_executable Popen url output_template quality
               extract_audio st in
  fst out = inr (url, true, "Download completed")
  /\ completed (progress_obj (snd out)) = true
  /\ display_status (progress_obj (snd out)) = COMPLETED
  /\ error (progress_obj (snd out)) = error (progress_obj st).
Proof.
  intros HP Hlines Hfail Hrc. cbv zeta.
  unfold download_video, try_except.
  rewrite (try_when_started sys_executable Popen url output_template quality
             extract_audio st process HP).
  pose proof (for_each_parses _ Hlines
                (asked (popen_call (command sys_executable url
                                      output_template quality extract_audio))
                   st)) as Hok.
  destruct (for_each_advances (lines (output process))
              (asked (popen_call (command sys_executable url output_template
                                    quality extract_audio)) st))
    as [(He & _) _].
  destruct (for_each (lines (output process)) (download_video_line patterns)
              (asked (popen_call (command sys_executable url output_template
                                    quality extract_audio)) st))
    as [[e|[]] s1]; simpl in Hok, He; [discriminate|].
  rewrite Hfail, (exit_zero_run url process s1 Hrc).
  destruct st as [p lg la]; destruct s1 as [p1 lg1 la1]; simpl in *.
  unfold display_status.
  destruct (completed p1) eqn:Hc; simpl; rewrite ?Hc; auto.
Qed.

Lemma C7_exit_code_zero_completes_witness :
  let out := download_video "/usr/bin/python3"
               (fun _ => inr (quiet_process 0))
               "https://example.com/v" "%(title)s.%(ext)s" "best" false
               (fresh "https://example.com/v") in
  fst out = inr ("https://example.com/v", true, "Download completed")
  /\ completed (progress_obj (snd out)) = true
  /\ display_status (progress_obj (snd out)) = COMPLETED
  /\ error (progress_obj (snd out)) = None.
Proof.
  apply (C7_exit_code_zero_completes "/usr/bin/python3"
           (fun _ => inr (quiet_process 0))
           "https://example.com/v" "%(title)s.%(ext)s" "best" false
           (fresh "https://example.com/v") (quiet_process 0)).
  - reflexivity.
  - vm_compute. reflexivity.
  - reflexivity.
  - reflexivity.
Defined.



(** C7 as worded fails: the output of this process cannot be decoded after
    its first line; the process exits with code 0 and the task is reported
    as failed, the record being left with an error and not completed. *)
Lemma C7_exit_code_zero_after_read_failure :
  let out := download_video "/usr/bin/python3"
               (fun _ => inr (undecodable_process 0))
               "https://example.com/v" "%(title)s.%(ext)s" "best" false
               (fresh "https://example.com/v") in
  returncode (undecodable_process 0) = 0%Z
  /\ fst out
     = inr ("https://example.com/v", false,
            "Exception for https://example.com/v: 'utf-8' codec can't decode byte 0xff in position 0: invalid start byte")
  /\ completed (progress_obj (snd out)) = false
  /\ display_status (progress_obj (snd out)) = ERROR.
Proof. vm_compute. repeat split. Qed.


(** ** C9: exceptions inside the [try] block *)

(** Where the [try] block raises: at the start of the process, at a line,
    or when reading the output fails. *)
Lemma try_raises_cases
    (sys_executable : string) (Popen : PopenArgs -> exception + Process)
    (url output_template quality : string) (extract_audio : bool)
    (st : Runner) (e : exception) :
  let command :=
    command sys_executable url output_template quality extract_audio in
  (Popen (popen_call command) = inl e ->
   fst (download_video_try Popen url command st) = inl e)
  /\ (forall process,
        Popen (popen_call command) = inr process ->
        forallb line_parses (lines (output process)) = true ->
        failure (output process) = Some e ->
        fst (download_video_try Popen url command st) = inl e).
Proof.
  cbv zeta. split.
  - intros HP.
    rewrite (try_when_popen_raises sys_executable Popen url output_template
               quality extract_audio st e HP). reflexivity.
  - intros process HP Hlines Hfail.
    rewrite (try_when_started sys_executable Popen url output_template quality
               extract_audio st process HP).
    pose proof (for_each_parses _ Hlines
                  (asked (popen_call (command sys_executable url
                                        output_template quality
                                        extract_audio)) st)) as Hok.
    destruct (for_each (lines (output process))
                (download_video_line patterns)
                (asked (popen_call (command sys_executable url
                                      output_template quality extract_audio))
                   st)) as [[e'|[]] s1]; simpl in Hok; [discriminate|].
    rewrite Hfail. reflexivity.
Qed.



(** C9 as worded fails: this process prints a completion line, after which
    its output cannot be decoded.  The exception is caught and the failure
    triple returned, with the message as the error of the record; but the
    record is left completed, the dashboard and the summary show it as
    [COMPLETED], and the summary counts it as successful and as failed. *)
Lemma C9_completed_before_the_exception :
  let out := download_video "/usr/bin/python3"
               (fun _ => inr completed_then_undecodable)
               "https://example.com/v" "%(title)s.%(ext)s" "best" false
               (fresh "https://example.com/v") in
  fst (download_video_try (fun _ => inr completed_then_undecodable)
         "https://example.com/v"
         (command "/usr/bin/python3" "https://example.com/v"
            "%(title)s.%(ext)s" "best" false)
         (fresh "https://example.com/v"))
  = inl (Exc UnicodeDecodeError
           "'utf-8' codec can't decode byte 0xff in position 0: invalid start byte")
  /\ fst out
     = inr ("https://example.com/v", false,
            "Exception for https://example.com/v: 'utf-8' codec can't decode byte 0xff in position 0: invalid start byte")
  /\ completed (progress_obj (fresh "https://example.com/v")) = false
  /\ completed (progress_obj (snd out)) = true
  /\ DownloadProgress.has_error (progress_obj (snd out)) = true
  /\ display_status (progress_obj (snd out)) = COMPLETED
  /\ summary_status (progress_obj (snd out)) = FINAL_COMPLETED
  /\ summary_counts [progress_obj (snd out)] = (1, 1).
Proof. vm_compute. repeat split. Qed.

(** ** C3: the two flags of a record *)




(** ** C4: the fields of a completed record *)

Lemma set_completed_fields (p : DownloadProgress) :
  completed (DownloadProgress.set_completed p) = true
  /\ complete_fields (DownloadProgress.set_completed p).
Proof. unfold complete_fields. simpl. auto. Qed.

Lemma named_keeps (line : string) (p : DownloadProgress) :
  completed (named line p) = completed p
  /\ downloaded (named line p) = downloaded p
  /\ size (named line p) = size p
  /\ percentage (named line p) = percentage p.
Proof.
  unfold named, apply_field.
  destruct (extracted (filename_pattern patterns) line); simpl; auto.
Qed.

(** C4, as the code has it.  [set_completed] leaves a completed record
    whose downloaded text is its size text and whose percentage is 100;
    so does every line with the completion marker that runs without an
    exception, and so does exit code 0 on a record that was not completed.
    A record for which completed implies these two equalities keeps that
    through every line that has no percentage token or has the completion
    marker. *)
Theorem C4_completed_fields (raw : string) (st : Runner) :
  let line := Str.strip raw in
  (forall p, completed (DownloadProgress.set_completed p) = true
             /\ complete_fields (DownloadProgress.set_completed p))
  /\ (Re.search (complete_pattern patterns) line <> None ->
      fst (download_video_line patterns raw st) = inr tt ->
      completed (after_line raw st) = true
      /\ complete_fields (after_line raw st))
  /\ (forall url process,
        returncode process = 0%Z ->
        completed (progress_obj st) = false ->
        let p' := progress_obj (snd (download_video_exit url process st)) in
        completed p' = true /\ complete_fields p')
  /\ (Re.search (percentage_pattern patterns) line = None
      \/ Re.search (complete_pattern patterns) line <> None ->
      (completed (progress_obj st) = true ->
       complete_fields (progress_obj st)) ->
      completed (after_line raw st) = true ->
      complete_fields (after_line raw st)).
Proof.
  cbv zeta. split; [exact set_completed_fields|].
  unfold after_line.
  destruct (Re.search (percentage_pattern patterns) (Str.strip raw))
    as [m|] eqn:Hs.
  - destruct (search_group (percentage_pattern patterns) _ _ eq_refl Hs)
      as (g & Hg).
    destruct (float g) as [e|v] eqn:Hv.
    + rewrite (line_with_bad_percentage raw st m g e Hs Hg Hv).
      split; [intros _ H; discriminate|]. split.
      { intros url process Hrc Hc. rewrite (exit_zero_run _ _ _ Hrc).
        destruct st as [p lg la]. simpl in *. rewrite Hc.
        apply set_completed_fields. }
      intros _ Hinv. destruct st as [p lg la]. simpl in *.
      destruct (named_keeps (Str.strip raw) p) as (Hc & Hd & Hz & Hp).
      unfold complete_fields in *. rewrite Hc, Hd, Hz, Hp. exact Hinv.
    + rewrite (line_with_percentage raw st m g v Hs Hg Hv).
      split.
      { intros Hc _. destruct st as [p lg la]. simpl.
        unfold mark_complete.
        destruct (Re.search (complete_pattern patterns) (Str.strip raw));
          [apply set_completed_fields | congruence]. }
      split.
      { intros url process Hrc Hc. rewrite (exit_zero_run _ _ _ Hrc).
        destruct st as [p lg la]. simpl in *. rewrite Hc.
        apply set_completed_fields. }
      intros [H | Hc]; [discriminate|]. intros _ _.
      destruct st as [p lg la]. simpl. unfold mark_complete.
      destruct (Re.search (complete_pattern patterns) (Str.strip raw));
        [apply set_completed_fields | congruence].
  - rewrite (line_without_percentage raw st Hs).
    split.
    { intros Hc _. destruct st as [p lg la]. simpl. unfold mark_complete.
      destruct (Re.search (complete_pattern patterns) (Str.strip raw));
        [apply set_completed_fields | congruence]. }
    split.
    { intros url process Hrc Hc. rewrite (exit_zero_run _ _ _ Hrc).
      destruct st as [p lg la]. simpl in *. rewrite Hc.
      apply set_completed_fields. }
    intros _ Hinv. destruct st as [p lg la]. simpl in *.
    unfold mark_complete.
    destruct (Re.search (complete_pattern patterns) (Str.strip raw)).
    + intros _. apply set_completed_fields.
    + destruct (named_keeps (Str.strip raw) p) as (Hc & Hd & Hz & Hp).
      unfold complete_fields in *. rewrite Hc, Hd, Hz, Hp. exact Hinv.
Qed.

Lemma C4_completed_fields_witness :
  (completed (after_line completion_line (fresh "u")) = true
   /\ complete_fields (after_line completion_line (fresh "u")))
  /\ complete_fields
       (after_line "[download] Destination: clip.mp4"
          (with_progress DownloadProgress.set_completed (fresh "u"))).
Proof.
  split.
  - apply (proj1 (proj2 (C4_completed_fields completion_line (fresh "u")))).
    + vm_compute. discriminate.
    + vm_compute. reflexivity.
  - apply (proj2 (proj2 (proj2
             (C4_completed_fields "[download] Destination: clip.mp4"
                (with_progress DownloadProgress.set_completed (fresh "u")))))).
    + left. vm_compute. reflexivity.
    + intros _. split; reflexivity.
    + vm_compute. reflexivity.
Defined.

(** C4 as worded fails: a second file follows the first one's completion
    line; at the end of the call, with exit code 0, the record is completed
    with percentage 45.2, size 120.00MiB and downloaded amount 3.00MiB. *)
Lemma C4_completed_record_is_overwritten :
  let out := download_video "/usr/bin/python3"
               (fun _ => inr {| output := {| lines := [completion_line;
                                                       later_line];
                                             failure := None |};
                                returncode := 0 |})
               "https://example.com/v" "%(title)s.%(ext)s" "best" false
               (fresh "https://example.com/v") in
  let p := progress_obj (snd out) in
  fst out = inr ("https://example.com/v", true, "Download completed")
  /\ completed p = true
  /\ percentage p = (226 # 5)%Q
  /\ ~ (percentage p == 100)%Q
  /\ size p = "120.00MiB"
  /\ downloaded p = "3.00MiB".
Proof.
  vm_compute. repeat split. intros H. discriminate H.
Qed.

(** ** C10: a URL file that does not exist *)

Section MissingFile.

Variable sys_executable : string.
Variable subprocess_run : PopenArgs -> option exception.
Variable open_text : string -> exception + Stream string.
Variable open_csv : string -> exception + Stream (list string).
Variable mkdir : string -> option exception.
Variable open_log : string -> option exception.
Variable run_downloads : argparse.Namespace -> list string -> MainM unit.

Lemma read_urls_from_missing_file (file_path msg : string) (w : World) :
  open_text file_path = inl (Exc FileNotFoundError msg) ->
  read_urls_from_file open_text file_path w
  = (inr [], file_not_found_printed file_path w).
Proof.
  intros Hopen. unfold read_urls_from_file, with_local.
  unfold bind at 1. unfold try_except. unfold bind at 1.
  rewrite Hopen. reflexivity.
Qed.

Lemma main_with_missing_file
    (args : argparse.Namespace) (file_path msg : string) (w : World) :
  subprocess_run (version_call sys_executable) = None ->
  mkdir (argparse.output_dir args) = None ->
  open_log (argparse.output_dir args) = None ->
  argparse.urls args = None ->
  argparse.file args = Some file_path ->
  file_path <> "" ->
  open_text file_path = inl (Exc FileNotFoundError msg) ->
  main sys_executable subprocess_run open_text open_csv mkdir open_log
    run_downloads args w
  = (inl (SystemExit 1),
     {| console := console (file_not_found_printed file_path w);
        logfile :=
          (logfile w
           ++ [(logging.INFO, "Script started with progress tracking");
               (logging.ERROR, "No URLs found")])%list |}).
Proof.
  intros Hrun Hmk Hlog Hurls Hfile Hne Hopen.
  unfold main, check_yt_dlp_installed, try_except.
  unfold bind at 1. rewrite Hrun. unfold ret at 1. cbv iota beta.
  unfold negb. cbv iota.
  unfold bind at 1. rewrite Hmk. unfold raise_if at 1. unfold ret at 1.
  unfold bind at 1. rewrite Hlog. unfold raise_if at 1. unfold ret at 1.
  unfold bind at 1. unfold main_log at 1. unfold modify at 1.
  rewrite Hurls, Hfile. unfold given_list.
  destruct file_path as [|c rest]; [congruence|].
  unfold nonempty_text.
  unfold bind at 1.
  rewrite (read_urls_from_missing_file (String c rest) msg _ Hopen).
  unfold bind, main_log, modify, sys_exit, raise.
  simpl. rewrite <- app_assoc. reflexivity.
Qed.

(** C10: when [check_yt_dlp_installed] succeeded, the output directory and
    the log could be set up, the URL source is [--file path] and opening
    [path] raises [FileNotFoundError], then [read_urls_from_file] returns
    the empty list after printing the error message, and [main] logs "No
    URLs found" and leaves through [sys.exit(1)]: exit status 1, with no
    download started. *)
Theorem C10_missing_url_file
    (args : argparse.Namespace) (file_path msg : string) (w : World) :
  subprocess_run (version_call sys_executable) = None ->
  mkdir (argparse.output_dir args) = None ->
  open_log (argparse.output_dir args) = None ->
  argparse.urls args = None ->
  argparse.file args = Some file_path ->
  file_path <> "" ->
  open_text file_path = inl (Exc FileNotFoundError msg) ->
  let out := main sys_executable subprocess_run open_text open_csv mkdir
               open_log run_downloads args w in
  read_urls_from_file open_text file_path w
  = (inr [], file_not_found_printed file_path w)
  /\ fst out = inl (SystemExit 1)
  /\ exit_status (fst out) = 1%Z
  /\ console (snd out) = console (file_not_found_printed file_path w)
  /\ logfile (snd out)
     = (logfile w
        ++ [(logging.INFO, "Script started with progress tracking");
            (logging.ERROR, "No URLs found")])%list.
Proof.
  intros Hrun Hmk Hlog Hurls Hfile Hne Hopen. cbv zeta.
  rewrite (main_with_missing_file args file_path msg w Hrun Hmk Hlog Hurls
             Hfile Hne Hopen).
  split; [exact (read_urls_from_missing_file file_path msg w Hopen)|].
  repeat split.
Qed.

End MissingFile.

Lemma C10_missing_url_file_witness :
  let out :=
    main "/usr/bin/python3" (fun _ => None)
      (fun _ => inl (Exc FileNotFoundError
                       "[Errno 2] No such file or directory: 'links.txt'"))
      (fun _ => inr {| lines := []; failure := None |})
      (fun _ => None) (fun _ => None) (fun _ _ => ret tt)
      {| argparse.urls := None; argparse.file := Some "links.txt";
         argparse.csv := None; argparse.output_dir := "./downloads";
         argparse.quality := "best"; argparse.extract_audio := false;
         argparse.threads := 1; argparse.retries := 2 |}
      {| console := []; logfile := [] |} in
  fst out = inl (SystemExit 1)
  /\ exit_status (fst out) = 1%Z
  /\ console (snd out) = ["Error: File links.txt not found."]
  /\ logfile (snd out)
     = [(logging.INFO, "Script started with progress tracking");
        (logging.ERROR, "No URLs found")].
Proof.
  apply (C10_missing_url_file "/usr/bin/python3" (fun _ => None)
           (fun _ => inl (Exc FileNotFoundError
                            "[Errno 2] No such file or directory: 'links.txt'"))
           (fun _ => inr {| lines := []; failure := None |})
           (fun _ => None) (fun _ => None) (fun _ _ => ret tt)
           {| argparse.urls := None; argparse.file := Some "links.txt";
              argparse.csv := None; argparse.output_dir := "./downloads";
              argparse.quality := "best"; argparse.extract_audio := false;
              argparse.threads := 1; argparse.retries := 2 |}
           "links.txt"
           "[Errno 2] No such file or directory: 'links.txt'"
           {| console := []; logfile := [] |});
    try reflexivity.
  discriminate.
Defined.

(** * Further properties of the code *)

(** ** The command line (lines 120-140) *)

(** X1: whatever the quality and the audio flag, the command has the
    interpreter first, the output template right after [-o] and the URL as
    its last argument, and it has 12 arguments plus 2 for a quality other
    than best plus 3 for audio extraction; with quality best and no audio
    extraction it is the fixed list below. *)
Theorem X1_command_shape
    (sys_executable url output_template quality : string)
    (extract_audio : bool) :
  let c := command sys_executable url output_template quality extract_audio in
  nth 0 c "" = sys_executable
  /\ nth 4 c "" = "-o"
  /\ nth 5 c "" = output_template
  /\ last c "" = url
  /\ List.length c
     = 12 + (if String.eqb quality "best" then 0 else 2)
       + (if extract_audio then 3 else 0)
  /\ (String.eqb quality "best" = false ->
      In "-S" c /\ In ("res:" ++ quality ++ ",ext:mp4:m4a") c)
  /\ (extract_audio = true -> In "-x" c /\ In "mp3" c)
  /\ (quality = "best" -> extract_audio = false ->
      c = [sys_executable; "-m"; "yt_dlp"; "--newline"; "-o";
           output_template; "--no-warnings"; "--add-metadata";
           "--no-overwrites"; "--continue"; "--restrict-filenames"; url]).
Proof.
  cbv zeta. unfold command.
  destruct (String.eqb quality "best") eqn:Hq; destruct extract_audio;
    simpl; repeat split; try discriminate; auto 20.
  all: intros ->; discriminate.
Qed.

Lemma X1_command_shape_witness :
  In "-S" (command "/usr/bin/python3" "https://example.com/v"
             "%(title)s.%(ext)s" "720p" true)
  /\ In "res:720p,ext:mp4:m4a"
       (command "/usr/bin/python3" "https://example.com/v"
          "%(title)s.%(ext)s" "720p" true).
Proof.
  apply (X1_command_shape "/usr/bin/python3" "https://example.com/v"
           "%(title)s.%(ext)s" "720p" true).
  reflexivity.
Defined.

(** ** The exceptions of a line (lines 156-188) *)

Lemma float_of_percentage_text (g : string) :
  Str.forallb digit_or_dot g = true ->
  float g
  = if decimal_literal g then inr (decimal_value g)
    else inl (Exc ValueError
                ("could not convert string to float: " ++ repr g)).
Proof. intros H. unfold float. rewrite H. reflexivity. Qed.

(** X2: the only exception a line of output can raise is the [ValueError]
    of [float] on its percentage token, and it is raised exactly when that
    token has two or more points or no digit. *)
Theorem X2_line_raises_only_on_bad_percentage (raw : string) (st : Runner) :
  (forall e,
     fst (download_video_line patterns raw st) = inl e ->
     exists g,
       extracted (percentage_pattern patterns) (Str.strip raw) = Some g
       /\ decimal_literal g = false
       /\ e = Exc ValueError
                ("could not convert string to float: " ++ repr g))
  /\ (forall g,
        extracted (percentage_pattern patterns) (Str.strip raw) = Some g ->
        decimal_literal g = false ->
        fst (download_video_line patterns raw st)
        = inl (Exc ValueError
                 ("could not convert string to float: " ++ repr g))).
Proof.
  unfold extracted.
  destruct (Re.search (percentage_pattern patterns) (Str.strip raw))
    as [m|] eqn:Hs.
  - destruct (search_group (percentage_pattern patterns) _ _ eq_refl Hs)
      as (g & Hg).
    pose proof (float_of_percentage_text g
                  (percentage_text_is_digits_and_points _ m g Hs Hg)) as Hf.
    rewrite Hg. destruct (decimal_literal g) eqn:Hd.
    + rewrite (line_with_percentage raw st m g _ Hs Hg Hf). simpl.
      split; [discriminate|]. intros g' [= <-]. congruence.
    + rewrite (line_with_bad_percentage raw st m g _ Hs Hg Hf). simpl.
      split.
      * intros e [= <-]. exists g. auto.
      * intros g' [= <-] _. reflexivity.
  - rewrite (line_without_percentage raw st Hs). simpl.
    split; [discriminate | intros g H; discriminate].
Qed.

Lemma X2_line_raises_only_on_bad_percentage_witness :
  fst (download_video_line patterns "[download] ...% of 120.00MiB"
         (fresh "u"))
  = inl (Exc ValueError "could not convert string to float: '...'").
Proof.
  apply (proj2 (X2_line_raises_only_on_bad_percentage
                  "[download] ...% of 120.00MiB" (fresh "u")) "...").
  - vm_compute. reflexivity.
  - reflexivity.
Defined.

(** ** Invariants of a whole run *)

Section RunInvariant.

Variable I : DownloadProgress -> Prop.
Hypothesis line_keeps :
  forall raw st, I (progress_obj st) -> I (after_line raw st).
Hypothesis set_completed_keeps :
  forall p, I p -> I (DownloadProgress.set_completed p).
Hypothesis set_error_keeps :
  forall msg p, I p -> I (DownloadProgress.set_error msg p).

Lemma for_each_keeps (raws : list string) :
  forall st,
    I (progress_obj st) ->
    I (progress_obj (snd (for_each raws (download_video_line patterns) st))).
Proof.
  induction raws as [|raw raws IH]; intros st H; simpl.
  - exact H.
  - unfold bind. pose proof (line_keeps raw st H) as H1.
    unfold after_line in H1.
    destruct (download_video_line patterns raw st) as [[e|[]] s1];
      simpl in *; [exact H1 | apply IH; exact H1].
Qed.

Lemma download_video_keeps
    (sys_executable : string) (Popen : PopenArgs -> exception + Process)
    (u output_template quality : string) (extract_audio : bool)
    (st : Runner) :
  I (progress_obj st) ->
  I (progress_obj (snd (download_video sys_executable Popen u output_template
                          quality extract_audio st))).
Proof.
  intros H. unfold download_video, try_except.
  destruct (Popen (popen_call (command sys_executable u output_template
                                 quality extract_audio))) as [e|process]
    eqn:HP.
  - rewrite (try_when_popen_raises sys_executable Popen u output_template
               quality extract_audio st e HP).
    destruct st as [p lg la]. simpl in *. apply set_error_keeps. exact H.
  - rewrite (try_when_started sys_executable Popen u output_template quality
               extract_audio st process HP).
    assert (H0 : I (progress_obj
                      (asked (popen_call
                                (command sys_executable u output_template
                                   quality extract_audio)) st)))
      by (destruct st; exact H).
    pose proof (for_each_keeps (lines (output process)) _ H0) as H1.
    destruct (for_each (lines (output process)) (download_video_line patterns)
                (asked (popen_call (command sys_executable u output_template
                                      quality extract_audio)) st))
      as [[e|[]] s1]; simpl in H1.
    + destruct s1 as [p1 lg1 la1]. simpl in *.
      apply set_error_keeps. exact H1.
    + destruct (failure (output process)) as [e|].
      * destruct s1 as [p1 lg1 la1]. simpl in *.
        apply set_error_keeps. exact H1.
      * destruct (Z.eq_dec (returncode process) 0) as [Hrc|Hrc].
        -- rewrite (exit_zero_run u process s1 Hrc).
           destruct s1 as [p1 lg1 la1]. simpl in *.
           destruct (completed p1); [exact H1|].
           apply set_completed_keeps. exact H1.
        -- rewrite (exit_nonzero_run u process s1 Hrc).
           destruct s1 as [p1 lg1 la1]. simpl in *.
           apply set_error_keeps. exact H1.
Qed.

End RunInvariant.

Lemma decimal_value_nonneg (s : string) : (0 <= decimal_value s)%Q.
Proof.
  unfold decimal_value. rewrite Qred_correct.
  unfold Qle. simpl. pose proof (N2Z.is_nonneg (digits_value s 0)). lia.
Qed.

Lemma float_nonneg (g : string) (v : Q) : float g = inr v -> (0 <= v)%Q.
Proof.
  unfold float.
  destruct (Str.forallb digit_or_dot g && decimal_literal g);
    [|discriminate].
  intros [= <-]. apply decimal_value_nonneg.
Qed.

Lemma apply_field_keeps (I : DownloadProgress -> Prop) r line set p :
  (forall g q, I q -> I (set g q)) ->
  I p -> I (apply_field r line set p).
Proof.
  intros H Hp. unfold apply_field.
  destruct (extracted r line); [apply H|]; exact Hp.
Qed.

(** What a line may do to the record: set the filename, the percentage to
    a number [float] returned, the four texts, and complete it. *)
Lemma line_keeps_invariant (I : DownloadProgress -> Prop) :
  (forall g p, I p -> I (DownloadProgress.with_filename g p)) ->
  (forall g p, I p -> I (DownloadProgress.with_size g p)) ->
  (forall g p, I p -> I (DownloadProgress.with_speed g p)) ->
  (forall g p, I p -> I (DownloadProgress.with_eta g p)) ->
  (forall g p, I p -> I (DownloadProgress.with_downloaded g p)) ->
  (forall g v p, float g = inr v -> I p ->
                 I (DownloadProgress.with_percentage v p)) ->
  (forall p, I p -> I (DownloadProgress.set_completed p)) ->
  forall raw st, I (progress_obj st) -> I (after_line raw st).
Proof.
  intros Hf Hz Hs He Hd Hp Hc raw st H. unfold after_line.
  assert (Hn : I (named (Str.strip raw) (progress_obj st)))
    by (unfold named; apply (apply_field_keeps I); assumption).
  assert (Hm : forall q, I q -> I (mark_complete (Str.strip raw) q)).
  { intros q Hq. unfold mark_complete.
    destruct (Re.search (complete_pattern patterns) (Str.strip raw));
      [apply Hc|]; exact Hq. }
  destruct (Re.search (percentage_pattern patterns) (Str.strip raw))
    as [m|] eqn:Hsr.
  - destruct (search_group (percentage_pattern patterns) _ _ eq_refl Hsr)
      as (g & Hg).
    destruct (float g) as [e|v] eqn:Hv.
    + rewrite (line_with_bad_percentage raw st m g e Hsr Hg Hv).
      destruct st; exact Hn.
    + rewrite (line_with_percentage raw st m g v Hsr Hg Hv).
      destruct st as [p lg la]. simpl in *. apply Hm.
      unfold same_line_fields.
      repeat (apply (apply_field_keeps I); [assumption|]).
      apply (Hp g); assumption.
  - rewrite (line_without_percentage raw st Hsr).
    destruct st as [p lg la]. simpl in *. apply Hm. exact Hn.
Qed.

(** X3: the percentage of the record is never made negative: if it is not
    negative when [download_video] is called, it is not negative when
    [download_video] returns, whatever the process printed. *)
Theorem X3_percentage_not_negative
    (sys_executable : string) (Popen : PopenArgs -> exception + Process)
    (u output_template quality : string) (extract_audio : bool)
    (st : Runner) :
  (0 <= percentage (progress_obj st))%Q ->
  (0 <= percentage
          (progress_obj (snd (download_video sys_executable Popen u
                                output_template quality extract_audio st))))%Q.
Proof.
  apply (download_video_keeps (fun p => (0 <= percentage p)%Q)).
  - apply (line_keeps_invariant (fun p => (0 <= percentage p)%Q));
      simpl; auto.
    + intros g v p Hv _. exact (float_nonneg g v Hv).
    + intros p _. discriminate.
  - intros p _. simpl. discriminate.
  - intros msg p H. exact H.
Qed.

Lemma X3_percentage_not_negative_witness :
  (0 <= percentage
          (progress_obj
             (snd (download_video "/usr/bin/python3"
                     (fun _ => inr (quiet_process 0))
                     "https://example.com/v" "%(title)s.%(ext)s" "best"
                     false (fresh "https://example.com/v")))))%Q.
Proof.
  apply (X3_percentage_not_negative "/usr/bin/python3"
           (fun _ => inr (quiet_process 0))
           "https://example.com/v" "%(title)s.%(ext)s" "best" false
           (fresh "https://example.com/v")).
  discriminate.
Defined.

(** X4: [download_video] never changes the url, the index or the total of
    the record it is given, in any run. *)
Theorem X4_task_identity_is_kept
    (sys_executable : string) (Popen : PopenArgs -> exception + Process)
    (u output_template quality : string) (extract_audio : bool)
    (st : Runner) :
  let p' := progress_obj (snd (download_video sys_executable Popen u
                                 output_template quality extract_audio st)) in
  url p' = url (progress_obj st)
  /\ index p' = index (progress_obj st)
  /\ total p' = total (progress_obj st).
Proof.
  cbv zeta.
  apply (download_video_keeps
           (fun p => url p = url (progress_obj st)
                     /\ index p = index (progress_obj st)
                     /\ total p = total (progress_obj st))).
  - apply (line_keeps_invariant
             (fun p => url p = url (progress_obj st)
                       /\ index p = index (progress_obj st)
                       /\ total p = total (progress_obj st)));
      simpl; auto.
  - auto.
  - auto.
  - auto.
Qed.

(** ** What a run writes to the log *)

Lemma line_log (raw : string) (st : Runner) :
  log (snd (download_video_line patterns raw st))
  = (log st ++ [line_record raw])%list.
Proof.
  destruct (line_run raw st) as (outcome & F & -> & _).
  destruct st; reflexivity.
Qed.

Lemma for_each_log (raws : list string) :
  forall st,
    exists k,
      k <= List.length raws
      /\ log (snd (for_each raws (download_video_line patterns) st))
         = (log st ++ map line_record (firstn k raws))%list
      /\ (fst (for_each raws (download_video_line patterns) st) = inr tt ->
          k = List.length raws).
Proof.
  induction raws as [|raw raws IH]; intros st.
  - exists 0. simpl. rewrite app_nil_r. auto.
  - simpl. unfold bind. pose proof (line_log raw st) as Hl.
    destruct (download_video_line patterns raw st) as [[e|[]] s1];
      simpl in Hl.
    + exists 1. simpl. split; [lia|]. split; [exact Hl | discriminate].
    + destruct (IH s1) as (k & Hk & Hlog & Hall).
      exists (S k). simpl. split; [lia|]. split.
      * rewrite Hlog, Hl, <- app_assoc. reflexivity.
      * intros H. rewrite (Hall H). reflexivity.
Qed.

(** X5: in every run the log gains, in order, one INFO record per output
    line read (the stripped line) and then exactly one closing record: INFO
    "SUCCESS: <url>" with a success result, ERROR with the returned message
    otherwise.  The lines logged are a prefix of the lines the process
    printed, all of them when the result is a success, and none when the
    process could not be started. *)
Theorem X5_log_of_a_run
    (sys_executable : string) (Popen : PopenArgs -> exception + Process)
    (u output_template quality : string) (extract_audio : bool)
    (st : Runner) :
  let out := download_video sys_executable Popen u output_template quality
               extract_audio st in
  exists read ok msg,
    fst out = inr (u, ok, msg)
    /\ log (snd out)
       = (log st ++ map line_record read ++ [closing_record u ok msg])%list
    /\ match Popen (popen_call (command sys_executable u output_template
                                  quality extract_audio)) with
       | inl _ => read = []
       | inr process =>
           (exists k, read = firstn k (lines (output process)))
           /\ (ok = true -> read = lines (output process))
       end.
Proof.
  cbv zeta. unfold download_video, try_except.
  destruct (Popen (popen_call (command sys_executable u output_template
                                 quality extract_audio))) as [e|process]
    eqn:HP.
  - rewrite (try_when_popen_raises sys_executable Popen u output_template
               quality extract_audio st e HP).
    exists [], false. eexists. destruct st as [p lg la]. simpl.
    repeat split.
  - rewrite (try_when_started sys_executable Popen u output_template quality
               extract_audio st process HP).
    destruct (for_each_log (lines (output process))
                (asked (popen_call (command sys_executable u output_template
                                      quality extract_audio)) st))
      as (k & Hk & Hlog & Hall).
    destruct (for_each (lines (output process)) (download_video_line patterns)
                (asked (popen_call (command sys_executable u output_template
                                      quality extract_audio)) st))
      as [[e|[]] s1]; simpl in Hlog, Hall.
    + exists (firstn k (lines (output process))), false. eexists.
      destruct st as [p lg la]; destruct s1 as [p1 lg1 la1]; simpl in *.
      rewrite Hlog, <- app_assoc.
      repeat split; [eauto | discriminate].
    + specialize (Hall eq_refl). subst k. rewrite firstn_all in Hlog.
      destruct (failure (output process)) as [e|].
      * exists (lines (output process)), false. eexists.
        destruct st as [p lg la]; destruct s1 as [p1 lg1 la1]; simpl in *.
        rewrite Hlog, <- app_assoc.
        repeat split. exists (List.length (lines (output process))).
        symmetry. apply firstn_all.
      * destruct (Z.eq_dec (returncode process) 0) as [Hrc|Hrc].
        -- rewrite (exit_zero_run u process s1 Hrc).
           exists (lines (output process)), true. eexists.
           destruct st as [p lg la]; destruct s1 as [p1 lg1 la1];
             simpl in *.
           rewrite Hlog, <- app_assoc.
           repeat split. exists (List.length (lines (output process))).
           symmetry. apply firstn_all.
        -- rewrite (exit_nonzero_run u process s1 Hrc).
           exists (lines (output process)), false. eexists.
           destruct st as [p lg la]; destruct s1 as [p1 lg1 la1];
             simpl in *.
           rewrite Hlog, <- app_assoc.
           repeat split. exists (List.length (lines (output process))).
           symmetry. apply firstn_all.
Qed.

Lemma X5_log_of_a_run_witness :
  exists read ok msg,
    fst (download_video "/usr/bin/python3" (fun _ => inr (quiet_process 0))
           "https://example.com/v" "%(title)s.%(ext)s" "best" false
           (fresh "https://example.com/v"))
    = inr ("https://example.com/v", ok, msg)
    /\ log (snd (download_video "/usr/bin/python3"
                   (fun _ => inr (quiet_process 0))
                   "https://example.com/v" "%(title)s.%(ext)s" "best" false
                   (fresh "https://example.com/v")))
       = (map line_record read
          ++ [closing_record "https://example.com/v" ok msg])%list
    /\ ((exists k, read = firstn k (lines (output (quiet_process 0))))
        /\ (ok = true -> read = lines (output (quiet_process 0)))).
Proof.
  exact (X5_log_of_a_run "/usr/bin/python3" (fun _ => inr (quiet_process 0))
           "https://example.com/v" "%(title)s.%(ext)s" "best" false
           (fresh "https://example.com/v")).
Defined.

(** ** The dashboard after a run (lines 210 and 255-262) *)

Lemma download_video_finishes
    (sys_executable : string) (Popen : PopenArgs -> exception + Process)
    (u output_template quality : string) (extract_audio : bool)
    (st : Runner) :
  finished (progress_obj (snd (download_video sys_executable Popen u
                                 output_template quality extract_audio st)))
  = true.
Proof.
  unfold download_video, try_except, finished.
  pose proof (try_advances sys_executable Popen u output_template quality
                extract_audio st) as [_ H].
  destruct (download_video_try Popen u
              (command sys_executable u output_template quality
                 extract_audio) st) as [[e|[[u' ok] msg]] s1];
    simpl in H.
  - destruct s1 as [p1 lg1 la1]. simpl. apply orb_true_r.
  - destruct H as (_ & _ & _ & H). simpl. destruct ok.
    + destruct H as (Hc & _). rewrite Hc. reflexivity.
    + destruct H as (He & process & _ & _ & ->).
      unfold DownloadProgress.has_error. rewrite He. apply orb_true_r.
Qed.

(** X6: once [download_video] has returned on each tracker and the stop
    event is set, the loop of [display_progress] ends; until the stop
    event is set it goes on.  In the final summary no such tracker shows as
    unknown, and the completed and failed counters together are at least
    the number of trackers. *)
Theorem X6_dashboard_after_the_runs
    (sys_executable : string) (Popen : PopenArgs -> exception + Process)
    (output_template quality : string) (extract_audio : bool)
    (tasks : list (string * Runner)) :
  let tracker_after task :=
    progress_obj (snd (download_video sys_executable Popen (fst task)
                         output_template quality extract_audio (snd task))) in
  let progress_trackers := map tracker_after tasks in
  display_continues true progress_trackers = false
  /\ display_continues false progress_trackers = true
  /\ Forall (fun tracker => summary_status tracker <> FINAL_UNKNOWN)
       progress_trackers
  /\ List.length progress_trackers
     <= fst (summary_counts progress_trackers)
        + snd (summary_counts progress_trackers).
Proof.
  cbv zeta.
  assert (Hfin : Forall (fun tracker => finished tracker = true)
                   (map (fun task =>
                           progress_obj
                             (snd (download_video sys_executable Popen
                                     (fst task) output_template quality
                                     extract_audio (snd task)))) tasks)).
  { apply Forall_forall. intros p Hin. apply in_map_iff in Hin.
    destruct Hin as (task & <- & _). apply download_video_finishes. }
  revert Hfin.
  generalize (map (fun task =>
                     progress_obj
                       (snd (download_video sys_executable Popen
                               (fst task) output_template quality
                               extract_audio (snd task)))) tasks).
  intros l Hfin. unfold display_continues, summary_counts. simpl.
  split; [|split; [reflexivity|split]].
  - induction Hfin as [|p l Hp _ IH]; simpl; [reflexivity|].
    rewrite IH, orb_false_r. unfold finished in Hp.
    destruct (completed p); destruct (DownloadProgress.has_error p);
      simpl in *; congruence.
  - induction Hfin as [|p l Hp _ IH]; constructor; [|exact IH].
    unfold summary_status, finished in *.
    destruct (completed p); destruct (DownloadProgress.has_error p);
      simpl in *; congruence.
  - induction Hfin as [|p l Hp _ IH]; simpl; [lia|].
    unfold finished in Hp.
    destruct (completed p); destruct (DownloadProgress.has_error p);
      simpl in *; try discriminate; lia.
Qed.

(** ** The shortened filename (lines 230-232 and 266-268) *)

Lemma shorten_length (limit keep : nat) (s : string) :
  keep + 3 = limit ->
  String.length (shorten limit keep s) = Nat.min (String.length s) limit.
Proof.
  intros H. unfold shorten.
  destruct (limit <? String.length s) eqn:Hl.
  - apply Nat.ltb_lt in Hl. simpl. rewrite length_drop. lia.
  - apply Nat.ltb_ge in Hl. lia.
Qed.

(** X7: the filename shown in a dashboard row is never longer than 30
    characters and the one in the final summary never longer than 40; a
    filename within the limit is shown as it is, a longer one as three
    points followed by its last 27 (37) characters, which makes exactly 30
    (40). *)
Theorem X7_short_filename (tracker : DownloadProgress) :
  let name := filename tracker in
  let n := String.length name in
  String.length (display_short_filename tracker) = Nat.min n 30
  /\ String.length (final_short_filename tracker) = Nat.min n 40
  /\ (n <= 30 -> display_short_filename tracker = name)
  /\ (n <= 40 -> final_short_filename tracker = name)
  /\ (30 < n ->
      display_short_filename tracker = "..." ++ Str.drop (n - 27) name
      /\ String.length (Str.drop (n - 27) name) = 27)
  /\ (40 < n ->
      final_short_filename tracker = "..." ++ Str.drop (n - 37) name
      /\ String.length (Str.drop (n - 37) name) = 37).
Proof.
  cbv zeta. unfold display_short_filename, final_short_filename.
  split; [apply shorten_length; reflexivity|].
  split; [apply shorten_length; reflexivity|].
  unfold shorten. repeat split.
  - intros H. apply Nat.ltb_ge in H. rewrite H. reflexivity.
  - intros H. apply Nat.ltb_ge in H. rewrite H. reflexivity.
  - apply Nat.ltb_lt in H. rewrite H. reflexivity.
  - rewrite length_drop. lia.
  - apply Nat.ltb_lt in H. rewrite H. reflexivity.
  - rewrite length_drop. lia.
Qed.

Lemma X7_short_filename_witness :
  display_short_filename
    (DownloadProgress.with_filename
       "downloads/A_very_long_title_of_a_video_file.mp4"
       (DownloadProgress.init "u" 1 1))
  = "...g_title_of_a_video_file.mp4"
  /\ String.length "g_title_of_a_video_file.mp4" = 27.
Proof.
  destruct (X7_short_filename
              (DownloadProgress.with_filename
                 "downloads/A_very_long_title_of_a_video_file.mp4"
                 (DownloadProgress.init "u" 1 1)))
    as (_ & _ & _ & _ & H & _).
  assert (Hlong : 30 < String.length
                          "downloads/A_very_long_title_of_a_video_file.mp4")
    by (apply Nat.ltb_lt; reflexivity).
  exact (H Hlong).
Defined.

(** ** The URL files (lines 58-82) *)

Section UrlFiles.

Variable open_text : string -> exception + Stream string.
Variable open_csv : string -> exception + Stream (list string).

Lemma file_loop (raws : list string) :
  forall (acc : list string) (w : World),
    for_each (E := base_exception) raws
      (fun line =>
         let line := Str.strip line in
         if negb (String.eqb line "") && negb (Str.startswith "#" line)
         then modify (fun st => ((fst st ++ [line])%list, snd st))
         else ret tt)
      (acc, w)
    = (inr tt, ((acc ++ urls_of_lines raws)%list, w)).
Proof.
  induction raws as [|raw raws IH]; intros acc w; simpl.
  - unfold ret, urls_of_lines. simpl. rewrite app_nil_r. reflexivity.
  - unfold bind, urls_of_lines. simpl. unfold keeps at 1.
    destruct (negb (String.eqb (Str.strip raw) "")
              && negb (Str.startswith "#" (Str.strip raw))).
    + unfold modify at 1. simpl. rewrite IH. unfold urls_of_lines.
      rewrite <- app_assoc. reflexivity.
    + unfold ret at 1. rewrite IH. reflexivity.
Qed.

Lemma csv_loop (rows : list (list string)) :
  forall (acc : list string) (w : World),
    for_each (E := base_exception) rows
      (fun row =>
         match row with
         | [] => ret tt
         | first :: _ =>
             let url := Str.strip first in
             if negb (String.eqb url "")
             then modify (fun st => ((fst st ++ [url])%list, snd st))
             else ret tt
         end)
      (acc, w)
    = (inr tt, ((acc ++ urls_of_rows rows)%list, w)).
Proof.
  induction rows as [|row rows IH]; intros acc w; simpl.
  - unfold ret, urls_of_rows. simpl. rewrite app_nil_r. reflexivity.
  - unfold bind. destruct row as [|first rest].
    + unfold ret at 1. rewrite IH. reflexivity.
    + cbv zeta. unfold urls_of_rows. simpl.
      destruct (negb (String.eqb (Str.strip first) "")).
      * unfold modify at 1. simpl. rewrite IH. unfold urls_of_rows.
        rewrite <- app_assoc. reflexivity.
      * unfold ret at 1. rewrite IH. reflexivity.
Qed.

(** X8: from a file that opens and reads to its end,
    [read_urls_from_file] returns the stripped lines that are neither
    empty nor start with [#], in the order of the file, and prints
    nothing; none of the URLs returned is empty or starts with [#]. *)
Theorem X8_urls_of_a_file (file_path : string) (f : Stream string)
    (w : World) :
  open_text file_path = inr f ->
  failure f = None ->
  read_urls_from_file open_text file_path w
  = (inr (urls_of_lines (lines f)), w)
  /\ Forall (fun url => url <> "" /\ Str.startswith "#" url = false)
       (urls_of_lines (lines f)).
Proof.
  intros Hopen Hfail. split.
  - unfold read_urls_from_file, with_local.
    unfold bind at 1. unfold try_except. unfold bind at 1.
    rewrite Hopen. unfold opened, lift, ret at 1.
    unfold iterate. unfold bind at 1. rewrite file_loop, Hfail.
    reflexivity.
  - apply Forall_forall. intros url Hin. unfold urls_of_lines in Hin.
    apply filter_In in Hin. destruct Hin as [_ Hk]. unfold keeps in Hk.
    apply andb_prop in Hk. destruct Hk as [Hne Hc].
    apply negb_true_iff in Hne, Hc. split; [|exact Hc].
    intros ->. discriminate.
Qed.

(** X9: [read_urls_from_file] catches [FileNotFoundError] only: any other
    exception raised when the file is opened, or while it is read,
    leaves the function as it is, nothing is printed and the URLs read
    before it are not returned. *)
Theorem X9_other_file_errors_propagate (file_path : string)
    (e : exception) (w : World) :
  exc_type e <> FileNotFoundError ->
  (open_text file_path = inl e ->
   read_urls_from_file open_text file_path w = (inl (Raised e), w))
  /\ (forall raws,
        open_text file_path = inr {| lines := raws; failure := Some e |} ->
        read_urls_from_file open_text file_path w = (inl (Raised e), w)).
Proof.
  intros Hclass.
  assert (Hcatch : except_classes [FileNotFoundError] (Raised e) = false).
  { simpl. destruct (exc_type e); try reflexivity. congruence. }
  split.
  - intros Hopen. unfold read_urls_from_file, with_local.
    unfold bind at 1. unfold try_except. unfold bind at 1.
    rewrite Hopen. unfold opened, lift, raise at 1. cbv beta iota.
    rewrite Hcatch. reflexivity.
  - intros raws Hopen. unfold read_urls_from_file, with_local.
    unfold bind at 1. unfold try_except. unfold bind at 1.
    rewrite Hopen. unfold opened, lift, ret at 1.
    unfold iterate. unfold bind at 1. simpl lines. rewrite file_loop.
    cbv [failure raise]. cbv beta iota.
    rewrite Hcatch. reflexivity.
Qed.

(** X10: [read_urls_from_csv] returns, from a file that opens and reads to
    its end, the stripped first cells of its rows that are not empty, in
    order, skipping empty rows and printing nothing; for a file that does
    not exist it prints the error message and returns the empty list. *)
Theorem X10_urls_of_a_csv_file (file_path : string) (w : World) :
  (forall reader,
     open_csv file_path = inr reader ->
     failure reader = None ->
     read_urls_from_csv open_csv file_path w
     = (inr (urls_of_rows (lines reader)), w))
  /\ (forall msg,
        open_csv file_path = inl (Exc FileNotFoundError msg) ->
        read_urls_from_csv open_csv file_path w
        = (inr [], csv_not_found_printed file_path w)).
Proof.
  split.
  - intros reader Hopen Hfail. unfold read_urls_from_csv, with_local.
    unfold bind at 1. unfold try_except. unfold bind at 1.
    rewrite Hopen. unfold opened, lift, ret at 1.
    unfold iterate. unfold bind at 1. rewrite csv_loop, Hfail.
    reflexivity.
  - intros msg Hopen. unfold read_urls_from_csv, with_local.
    unfold bind at 1. unfold try_except. unfold bind at 1.
    rewrite Hopen. reflexivity.
Qed.

End UrlFiles.

Lemma X8_urls_of_a_file_witness :
  read_urls_from_file
    (fun _ => inr {| lines := ["# my list"; "  https://a.example/1  ";
                               ""; "https://b.example/2"];
                     failure := None |})
    "links.txt" {| console := []; logfile := [] |}
  = (inr ["https://a.example/1"; "https://b.example/2"],
     {| console := []; logfile := [] |}).
Proof.
  exact (proj1 (X8_urls_of_a_file
                  (fun _ => inr {| lines := ["# my list";
                                             "  https://a.example/1  ";
                                             ""; "https://b.example/2"];
                                   failure := None |})
                  "links.txt" _ {| console := []; logfile := [] |}
                  eq_refl eq_refl)).
Defined.

Lemma X9_other_file_errors_propagate_witness :
  read_urls_from_file
    (fun _ => inl (Exc PermissionError "[Errno 13] Permission denied"))
    "links.txt" {| console := []; logfile := [] |}
  = (inl (Raised (Exc PermissionError "[Errno 13] Permission denied")),
     {| console := []; logfile := [] |}).
Proof.
  apply (X9_other_file_errors_propagate
           (fun _ => inl (Exc PermissionError "[Errno 13] Permission denied"))
           "links.txt"
           (Exc PermissionError "[Errno 13] Permission denied")).
  - discriminate.
  - reflexivity.
Defined.

Lemma X10_urls_of_a_csv_file_witness :
  read_urls_from_csv
    (fun _ => inr {| lines := [["url"; "title"]; [];
                               [" https://a.example/1 "; "first"];
                               [""; "no url"]];
                     failure := None |})
    "links.csv" {| console := []; logfile := [] |}
  = (inr ["url"; "https://a.example/1"],
     {| console := []; logfile := [] |}).
Proof.
  exact (proj1 (X10_urls_of_a_csv_file
                  (fun _ => inr {| lines := [["url"; "title"]; [];
                                             [" https://a.example/1 ";
                                              "first"];
                                             [""; "no url"]];
                                   failure := None |})
                  "links.csv" {| console := []; logfile := [] |})
           _ eq_refl eq_refl).
Defined.

(** ** A URL file read back *)

Lemma append_assoc (a b c : string) : (a ++ b) ++ c = a ++ (b ++ c).
Proof. induction a as [|x a IH]; simpl; [|rewrite IH]; reflexivity. Qed.

Lemma rev_onto_append (s : string) :
  forall acc, Str.rev_onto s acc = Str.rev_onto s "" ++ acc.
Proof.
  induction s as [|c s IH]; intros acc; simpl; [reflexivity|].
  rewrite (IH (String c acc)), (IH (String c "")), append_assoc.
  reflexivity.
Qed.

Lemma rev_append (a b : string) : Str.rev (a ++ b) = Str.rev b ++ Str.rev a.
Proof.
  unfold Str.rev. induction a as [|c a IH]; simpl.
  - induction (Str.rev_onto b "") as [|x r IHr]; simpl;
      [|rewrite <- IHr]; reflexivity.
  - rewrite (rev_onto_append (a ++ b)), (rev_onto_append a), IH.
    apply append_assoc.
Qed.

Lemma rev_involutive (s : string) : Str.rev (Str.rev s) = s.
Proof.
  induction s as [|c s IH]; [reflexivity|].
  change (String c s) with (String c "" ++ s) at 1.
  rewrite rev_append, rev_append, IH. reflexivity.
Qed.

Lemma forallb_append (f : ascii -> bool) (a b : string) :
  Str.forallb f (a ++ b) = Str.forallb f a && Str.forallb f b.
Proof.
  induction a as [|c a IH]; simpl; [reflexivity|].
  rewrite IH, andb_assoc. reflexivity.
Qed.

Lemma forallb_rev (f : ascii -> bool) (s : string) :
  Str.forallb f (Str.rev s) = Str.forallb f s.
Proof.
  induction s as [|c s IH]; [reflexivity|].
  change (String c s) with (String c "" ++ s) at 1.
  rewrite rev_append, forallb_append, IH. simpl.
  rewrite andb_true_r. apply andb_comm.
Qed.

Lemma lstrip_spaceless (s : string) :
  spaceless s = true -> Str.lstrip s = s.
Proof.
  destruct s as [|c s]; [reflexivity|]. unfold spaceless. simpl.
  intros H. apply andb_prop in H. destruct H as [Hc _].
  apply negb_true_iff in Hc. rewrite Hc. reflexivity.
Qed.

(** A line holding a URL without whitespace and ending in a newline
    strips to the URL. *)
Lemma strip_written_line (url : string) :
  spaceless url = true -> Str.strip (written_line url) = url.
Proof.
  intros H. destruct url as [|c url]; [reflexivity|].
  unfold Str.strip, Str.rstrip, written_line.
  assert (Hl : Str.lstrip (String c url ++ String Str.newline "")
               = String c url ++ String Str.newline "").
  { unfold spaceless in H. simpl in *.
    apply andb_prop in H. destruct H as [Hc _].
    apply negb_true_iff in Hc. rewrite Hc. reflexivity. }
  rewrite Hl, rev_append.
  change (Str.rev (String Str.newline "")) with (String Str.newline "").
  change (String Str.newline "" ++ Str.rev (String c url))
    with (String Str.newline (Str.rev (String c url))).
  change (Str.lstrip (String Str.newline (Str.rev (String c url))))
    with (Str.lstrip (Str.rev (String c url))).
  rewrite lstrip_spaceless.
  - apply rev_involutive.
  - unfold spaceless. rewrite forallb_rev. exact H.
Qed.

Lemma urls_of_written_lines (urls : list string) :
  Forall (fun url => spaceless url = true /\ keeps url = true) urls ->
  urls_of_lines (map written_line urls) = urls.
Proof.
  unfold urls_of_lines.
  induction 1 as [|url urls [Hs Hk] _ IH]; simpl; [reflexivity|].
  rewrite (strip_written_line url Hs), Hk, IH. reflexivity.
Qed.

Lemma read_urls_from_readable_file
    (open_text : string -> exception + Stream string)
    (file_path : string) (f : Stream string) (w : World) :
  open_text file_path = inr f ->
  failure f = None ->
  read_urls_from_file open_text file_path w
  = (inr (urls_of_lines (lines f)), w).
Proof.
  intros Hopen Hfail. unfold read_urls_from_file, with_local.
  unfold bind at 1. unfold try_except. unfold bind at 1.
  rewrite Hopen. unfold opened, lift, ret at 1.
  unfold iterate. unfold bind at 1. rewrite file_loop, Hfail.
  reflexivity.
Qed.

(** X11: a file that lists URLs one per line, each without whitespace, not
    empty and not starting with [#], is read back by [read_urls_from_file]
    as exactly that list, in order and with duplicates kept. *)
Theorem X11_url_file_round_trip
    (open_text : string -> exception + Stream string)
    (file_path : string) (urls : list string) (w : World) :
  Forall (fun url => spaceless url = true /\ keeps url = true) urls ->
  open_text file_path
  = inr {| lines := map written_line urls; failure := None |} ->
  read_urls_from_file open_text file_path w = (inr urls, w).
Proof.
  intros Hurls Hopen.
  rewrite (read_urls_from_readable_file open_text file_path _ w Hopen
             eq_refl).
  simpl lines. cbv [lines]. rewrite (urls_of_written_lines urls Hurls).
  reflexivity.
Qed.

Lemma X11_url_file_round_trip_witness :
  read_urls_from_file
    (fun _ => inr {| lines := map written_line
                                ["https://a.example/1"; "https://b.example/2";
                                 "https://a.example/1"];
                     failure := None |})
    "links.txt" {| console := []; logfile := [] |}
  = (inr ["https://a.example/1"; "https://b.example/2";
          "https://a.example/1"],
     {| console := []; logfile := [] |}).
Proof.
  apply (X11_url_file_round_trip
           (fun _ => inr {| lines := map written_line
                                       ["https://a.example/1";
                                        "https://b.example/2";
                                        "https://a.example/1"];
                            failure := None |})
           "links.txt"
           ["https://a.example/1"; "https://b.example/2";
            "https://a.example/1"]).
  - repeat constructor.
  - reflexivity.
Defined.

(** ** [main] up to the downloads (lines 299-325) *)

Section MainRuns.

Variable sys_executable : string.
Variable subprocess_run : PopenArgs -> option exception.
Variable open_text : string -> exception + Stream string.
Variable open_csv : string -> exception + Stream (list string).
Variable mkdir : string -> option exception.
Variable open_log : string -> option exception.
Variable run_downloads : argparse.Namespace -> list string -> MainM unit.

Local Abbreviation main_of :=
  (main sys_executable subprocess_run open_text open_csv mkdir open_log
     run_downloads).

Lemma main_after_setup (args : argparse.Namespace) (w : World) :
  subprocess_run (version_call sys_executable) = None ->
  mkdir (argparse.output_dir args) = None ->
  open_log (argparse.output_dir args) = None ->
  main_of args w
  = bind
      (if given_list (argparse.urls args) then
         ret (read_urls_from_args args)
       else
         match nonempty_text (argparse.file args) with
         | Some file => read_urls_from_file open_text file
         | None =>
             match nonempty_text (argparse.csv args) with
             | Some csv => read_urls_from_csv open_csv csv
             | None =>
                 main_print "usage: video_downloader.py" ;;
                 sys_exit 1
             end
         end)
      (fun urls =>
         match urls with
         | [] =>
             main_log logging.ERROR "No URLs found" ;;
             sys_exit 1
         | _ :: _ =>
             main_log logging.INFO
               ("Found " ++ Str.of_Z (Z.of_nat (List.length urls))
                ++ " URLs") ;;
             run_downloads args urls
         end)
      (with_logs [started_record] w).
Proof.
  intros Hrun Hmk Hlog.
  unfold main, check_yt_dlp_installed, try_except.
  unfold bind at 1. rewrite Hrun. unfold ret at 1. cbv iota beta.
  unfold negb. cbv iota.
  unfold bind at 1. rewrite Hmk. unfold raise_if at 1. unfold ret at 1.
  unfold bind at 1. rewrite Hlog. unfold raise_if at 1. unfold ret at 1.
  unfold bind at 1. unfold main_log at 1. unfold modify at 1.
  reflexivity.
Qed.

Lemma check_yt_dlp_installed_run (w : World) :
  check_yt_dlp_installed sys_executable subprocess_run w
  = match subprocess_run (version_call sys_executable) with
    | None => (inr true, w)
    | Some e =>
        if existsb (exc_class_eqb (exc_type e))
             [CalledProcessError; TimeoutExpired; FileNotFoundError]
        then (inr false, w)
        else (inl (Raised e), w)
    end.
Proof.
  unfold check_yt_dlp_installed, try_except.
  destruct (subprocess_run (version_call sys_executable)) as [e|];
    reflexivity.
Qed.

(** X12: when the yt-dlp check raises [CalledProcessError],
    [TimeoutExpired] or [FileNotFoundError], [main] prints the two
    messages and leaves with [sys.exit(1)] without logging anything,
    making the output directory or reading a URL source; an exception of
    another class raised by the check is not caught and ends [main]. *)
Theorem X12_main_without_yt_dlp (args : argparse.Namespace)
    (e : exception) (w : World) :
  subprocess_run (version_call sys_executable) = Some e ->
  (In (exc_type e) [CalledProcessError; TimeoutExpired; FileNotFoundError] ->
   main_of args w = (inl (SystemExit 1), not_installed_printed w))
  /\ (~ In (exc_type e)
          [CalledProcessError; TimeoutExpired; FileNotFoundError] ->
      main_of args w = (inl (Raised e), w)).
Proof.
  intros Hrun. split; intros Hin; unfold main; unfold bind at 1;
    rewrite check_yt_dlp_installed_run, Hrun.
  - assert (Hc : existsb (exc_class_eqb (exc_type e))
                   [CalledProcessError; TimeoutExpired; FileNotFoundError]
                 = true).
    { simpl in Hin. destruct Hin as [<- | [<- | [<- | []]]]; reflexivity. }
    rewrite Hc. cbv beta iota. unfold negb. cbv iota.
    unfold bind, main_print, modify, sys_exit, raise, not_installed_printed.
    simpl. rewrite <- app_assoc. reflexivity.
  - assert (Hc : existsb (exc_class_eqb (exc_type e))
                   [CalledProcessError; TimeoutExpired; FileNotFoundError]
                 = false).
    { simpl in *. destruct (exc_type e); try reflexivity;
        exfalso; apply Hin; auto. }
    rewrite Hc. reflexivity.
Qed.

(** X13: when the check passed and the directory and the log were set up,
    a non-empty list of URLs given on the command line goes to the
    downloads as it is, after the start and the count were logged; no URL
    file is opened. *)
Theorem X13_main_with_urls_on_the_command_line (args : argparse.Namespace)
    (first : string) (rest : list string) (w : World) :
  subprocess_run (version_call sys_executable) = None ->
  mkdir (argparse.output_dir args) = None ->
  open_log (argparse.output_dir args) = None ->
  argparse.urls args = Some (first :: rest) ->
  main_of args w
  = run_downloads args (first :: rest)
      (with_logs [started_record; found_record (first :: rest)] w).
Proof.
  intros Hrun Hmk Hlog Hurls.
  rewrite (main_after_setup args w Hrun Hmk Hlog).
  unfold read_urls_from_args. rewrite Hurls. unfold given_list.
  unfold bind at 1. unfold ret at 1.
  unfold bind, main_log, modify, with_logs, found_record. simpl.
  rewrite <- app_assoc. reflexivity.
Qed.

(** X14: with a URL file that opens and reads to its end, [main] hands the
    URLs of the file to the downloads after logging their number; when
    the file has no URL (it is empty, or holds only blank lines and
    comments) [main] logs "No URLs found" and leaves with [sys.exit(1)]
    without starting a download. *)
Theorem X14_main_with_a_url_file (args : argparse.Namespace)
    (file_path : string) (f : Stream string) (w : World) :
  subprocess_run (version_call sys_executable) = None ->
  mkdir (argparse.output_dir args) = None ->
  open_log (argparse.output_dir args) = None ->
  argparse.urls args = None ->
  argparse.file args = Some file_path ->
  file_path <> "" ->
  open_text file_path = inr f ->
  failure f = None ->
  main_of args w
  = match urls_of_lines (lines f) with
    | [] =>
        (inl (SystemExit 1),
         with_logs [started_record; (logging.ERROR, "No URLs found")] w)
    | urls =>
        run_downloads args urls
          (with_logs [started_record; found_record urls] w)
    end.
Proof.
  intros Hrun Hmk Hlog Hurls Hfile Hne Hopen Hfail.
  rewrite (main_after_setup args w Hrun Hmk Hlog).
  rewrite Hurls, Hfile. unfold given_list.
  destruct file_path as [|c path]; [congruence|].
  unfold nonempty_text. unfold bind at 1.
  rewrite (read_urls_from_readable_file open_text (String c path) f _
             Hopen Hfail).
  destruct (urls_of_lines (lines f)) as [|url urls].
  - unfold bind, main_log, modify, sys_exit, raise, with_logs. simpl.
    rewrite <- app_assoc. reflexivity.
  - unfold bind, main_log, modify, with_logs, found_record. simpl.
    rewrite <- app_assoc. reflexivity.
Qed.

(** X15: when the output directory cannot be made, or the log file in it
    cannot be opened, [main] ends with that exception: nothing is logged,
    no URL source is read and no download is started. *)
Theorem X15_main_setup_failure (args : argparse.Namespace)
    (e : exception) (w : World) :
  subprocess_run (version_call sys_executable) = None ->
  mkdir (argparse.output_dir args) = Some e
  \/ (mkdir (argparse.output_dir args) = None
      /\ open_log (argparse.output_dir args) = Some e) ->
  main_of args w = (inl (Raised e), w)
  /\ exit_status (fst (main_of args w)) = 1%Z.
Proof.
  intros Hrun H.
  assert (Hmain : main_of args w = (inl (Raised e), w)).
  { unfold main, check_yt_dlp_installed, try_except.
    unfold bind at 1. rewrite Hrun. unfold ret at 1. cbv iota beta.
    unfold negb. cbv iota. unfold bind at 1.
    destruct H as [Hmk | [Hmk Hlog]].
    - rewrite Hmk. reflexivity.
    - rewrite Hmk. unfold raise_if at 1. unfold ret at 1.
      unfold bind at 1. rewrite Hlog. reflexivity. }
  rewrite Hmain. split; reflexivity.
Qed.

End MainRuns.

Lemma X12_main_without_yt_dlp_witness :
  main "/usr/bin/python3"
    (fun _ => Some (Exc CalledProcessError
                      "Command returned non-zero exit status 1."))
    (fun _ => inr {| lines := []; failure := None |})
    (fun _ => inr {| lines := []; failure := None |})
    (fun _ => None) (fun _ => None) (fun _ _ => ret tt)
    args_with_urls empty_world
  = (inl (SystemExit 1), not_installed_printed empty_world).
Proof.
  apply (X12_main_without_yt_dlp "/usr/bin/python3"
           (fun _ => Some (Exc CalledProcessError
                             "Command returned non-zero exit status 1."))
           (fun _ => inr {| lines := []; failure := None |})
           (fun _ => inr {| lines := []; failure := None |})
           (fun _ => None) (fun _ => None) (fun _ _ => ret tt)
           args_with_urls
           (Exc CalledProcessError
              "Command returned non-zero exit status 1.")
           empty_world).
  - reflexivity.
  - left. reflexivity.
Defined.

Lemma X13_main_with_urls_on_the_command_line_witness :
  main "/usr/bin/python3" (fun _ => None)
    (fun _ => inl (Exc FileNotFoundError "[Errno 2]"))
    (fun _ => inl (Exc FileNotFoundError "[Errno 2]"))
    (fun _ => None) (fun _ => None)
    (fun _ urls => main_print (String.concat " " urls))
    args_with_urls empty_world
  = (inr tt,
     {| console := ["https://a.example/1 https://b.example/2"];
        logfile := [started_record; (logging.INFO, "Found 2 URLs")] |}).
Proof.
  rewrite (X13_main_with_urls_on_the_command_line "/usr/bin/python3"
             (fun _ => None)
             (fun _ => inl (Exc FileNotFoundError "[Errno 2]"))
             (fun _ => inl (Exc FileNotFoundError "[Errno 2]"))
             (fun _ => None) (fun _ => None)
             (fun _ urls => main_print (String.concat " " urls))
             args_with_urls "https://a.example/1" ["https://b.example/2"]
             empty_world eq_refl eq_refl eq_refl eq_refl).
  reflexivity.
Defined.

Lemma X14_main_with_a_url_file_witness :
  main "/usr/bin/python3" (fun _ => None)
    (fun _ => inr {| lines := ["# nothing yet"; "   "]; failure := None |})
    (fun _ => inl (Exc FileNotFoundError "[Errno 2]"))
    (fun _ => None) (fun _ => None)
    (fun _ urls => main_print (String.concat " " urls))
    args_with_file empty_world
  = (inl (SystemExit 1),
     {| console := [];
        logfile := [started_record; (logging.ERROR, "No URLs found")] |}).
Proof.
  rewrite (X14_main_with_a_url_file "/usr/bin/python3" (fun _ => None)
             (fun _ => inr {| lines := ["# nothing yet"; "   "];
                              failure := None |})
             (fun _ => inl (Exc FileNotFoundError "[Errno 2]"))
             (fun _ => None) (fun _ => None)
             (fun _ urls => main_print (String.concat " " urls))
             args_with_file "links.txt"
             {| lines := ["# nothing yet"; "   "]; failure := None |}
             empty_world eq_refl eq_refl eq_refl eq_refl eq_refl
             ltac:(discriminate) eq_refl eq_refl).
  reflexivity.
Defined.

Lemma X15_main_setup_failure_witness :
  main "/usr/bin/python3" (fun _ => None)
    (fun _ => inr {| lines := []; failure := None |})
    (fun _ => inr {| lines := []; failure := None |})
    (fun _ => Some (Exc PermissionError "[Errno 13] Permission denied"))
    (fun _ => None) (fun _ _ => ret tt)
    args_with_urls empty_world
  = (inl (Raised (Exc PermissionError "[Errno 13] Permission denied")),
     empty_world).
Proof.
  apply (X15_main_setup_failure "/usr/bin/python3" (fun _ => None)
           (fun _ => inr {| lines := []; failure := None |})
           (fun _ => inr {| lines := []; failure := None |})
           (fun _ => Some (Exc PermissionError
                             "[Errno 13] Permission denied"))
           (fun _ => None) (fun _ _ => ret tt)
           args_with_urls
           (Exc PermissionError "[Errno 13] Permission denied")
           empty_world).
  - reflexivity.
  - left. reflexivity.
Defined.

(** ** Lines that are not progress lines *)

Lemma literal_is_prefix (text : string) (rest : Re.regex) :
  forall s o g x,
    Re.match_here (literal text ++ rest)%list s o g = Some x ->
    prefix text s = true.
Proof.
  induction text as [|c text IH]; intros s o g x Hm; simpl in *.
  - destruct s; reflexivity.
  - apply attempt_some in Hm. destruct Hm as (j & Hj & Hm).
    destruct s as [|d s]; simpl in Hj; [lia|].
    destruct (Ascii.eqb c d) eqn:Hcd; simpl in Hj; [|lia].
    apply Ascii.eqb_eq in Hcd. subst d.
    assert (j = 1) by lia. subst j. simpl in Hm. simpl.
    destruct (ascii_dec c c) as [_|Hne]; [|congruence].
    exact (IH _ _ _ _ Hm).
Qed.

Lemma search_contains (text : string) (rest : Re.regex) (s : string) :
  Str.contains text s = false ->
  Re.search (literal text ++ rest)%list s = None.
Proof.
  induction s as [|c s IH]; intros H; cbn [Str.contains] in H;
    apply orb_false_iff in H; destruct H as [Hp Hc]; cbn [Re.search].
  - destruct (Re.match_here (literal text ++ rest)%list "" "" None) eqn:Hm;
      [|reflexivity].
    rewrite (literal_is_prefix _ _ _ _ _ _ Hm) in Hp. discriminate.
  - destruct (Re.match_here (literal text ++ rest)%list (String c s)
                (String c s) None) eqn:Hm.
    + rewrite (literal_is_prefix _ _ _ _ _ _ Hm) in Hp. discriminate.
    + exact (IH Hc).
Qed.

(** X16: an output line that contains neither the text [[download]] nor
    the text [Destination:] raises nothing and changes nothing of the
    record; it is only logged. *)
Theorem X16_other_lines_are_inert (raw : string) (st : Runner) :
  Str.contains "[download]" (Str.strip raw) = false ->
  Str.contains "Destination:" (Str.strip raw) = false ->
  download_video_line patterns raw st
  = (inr tt, logged logging.INFO (Str.strip raw) st).
Proof.
  intros Hd Hf. apply unmatched_line_is_inert.
  - exact (search_contains "Destination:"
             (skipn 12 (filename_pattern patterns)) _ Hf).
  - exact (search_contains "[download]"
             (skipn 10 (percentage_pattern patterns)) _ Hd).
  - exact (search_contains "[download]"
             (skipn 10 (complete_pattern patterns)) _ Hd).
Qed.

Lemma X16_other_lines_are_inert_witness :
  download_video_line patterns
    "[youtube] Extracting URL: https://example.com/v at 3.50MiB/s"
    (fresh "u")
  = (inr tt,
     logged logging.INFO
       "[youtube] Extracting URL: https://example.com/v at 3.50MiB/s"
       (fresh "u")).
Proof.
  apply (X16_other_lines_are_inert
           "[youtube] Extracting URL: https://example.com/v at 3.50MiB/s"
           (fresh "u")); reflexivity.
Defined.
